(** * libcore.icu.NativeDecimalFormat: the JNI bridge to ICU's DecimalFormat

    A shallow embedding of
    [luni/src/main/native/libcore_icu_NativeDecimalFormat.cpp].

    The file is a bridge: every native method unwraps its Java arguments,
    calls one operation of ICU4C's [DecimalFormat] and wraps the answer.
    Pattern compilation, rounding, formatting and the number parser live in
    ICU4C, a library outside this repository.  They appear below as section
    variables, so every theorem about the bridge holds for whatever ICU4C
    does.  What the bridge computes itself (the symbol table built from the
    Java arguments, the start-offset guard of [parse], the way a parse
    outcome is written back into the [ParsePosition], the boxing of the
    parsed value, how an ICU status becomes an exception) is modelled
    statement by statement. *)

From Stdlib Require Import ZArith List String Ascii Bool Lia.
From Stdlib Require Import Floats.SpecFloat.
From stdpp Require Import base decidable functions.

Import ListNotations.
Local Open Scope Z_scope.

(** ** JNI scalars and strings *)

Module Jni.

(** [jchar] is an unsigned 16-bit integer, [jint] a signed 32-bit one.
    Both are carried as [Z]; the ranges are stated where a proof needs
    them. *)
Definition jchar := Z.
Definition jint := Z.
Definition jlong := Z.

Definition jchar_range (c : jchar) : Prop := 0 <= c < 65536.

(** An IEEE double that is only passed along, never computed with. *)
Definition jdouble := spec_float.

(** A sequence of UTF-16 code units: the contents of a [java.lang.String]
    and of an ICU [UnicodeString]. *)
Definition UnicodeString := list Z.

(** A [jstring] reference is either [null] or a string. *)
Definition jstring := option UnicodeString.

(** [env->GetStringLength(s)]; only called on non-null references. *)
Definition GetStringLength (s : jstring) : Z :=
  match s with
  | Some chars => Z.of_nat (length chars)
  | None => 0
  end.

(** ICU's [UErrorCode]: zero is [U_ZERO_ERROR], negative codes are
    warnings, positive codes are errors. *)
Definition UErrorCode := Z.
Definition U_ZERO_ERROR : UErrorCode := 0.
Definition U_SUCCESS (status : UErrorCode) : bool := status <=? U_ZERO_ERROR.
Definition U_FAILURE (status : UErrorCode) : bool := U_ZERO_ERROR <? status.

(** The exceptions the bridge can leave pending. *)
Inductive Throwable : Type :=
| NullPointerException
| IcuException (function : string) (status : UErrorCode).

(** The part of the JNI environment the bridge writes: the pending
    exception of the current thread. *)
Record JNIEnv : Type := { pending : option Throwable }.

Definition Throw (env : JNIEnv) (t : Throwable) : JNIEnv :=
  {| pending := Some t |}.

(** What the Java caller of a native method observes.  A native method
    that returns while an exception is pending does not deliver its
    return value: the exception is raised in the caller instead. *)
Inductive JavaResult (A : Type) : Type :=
| Returns (a : A)
| Throws (t : Throwable).
Arguments Returns {A} a.
Arguments Throws {A} t.

Definition jni_return {A : Type} (env : JNIEnv) (ret : A) : JavaResult A :=
  match pending env with
  | Some t => Throws t
  | None => Returns ret
  end.

(** [ScopedJavaUnicodeString]: a [jstring] viewed as a [UnicodeString].
    The helper header is not among the sources.  The bridge constructs
    one per string argument and reads its [valid()] and
    [unicodeString()] members; the constructor itself is a parameter of
    the bridge (section [Bridge]). *)
Record ScopedJavaUnicodeString : Type :=
  { valid : bool; unicodeString : UnicodeString }.

(** Modelled from the spec: [maybeThrowIcuException] (IcuUtilities, not
    among the sources) is the boundary's "translating internal error
    codes into the caller's exception/error convention".  Its callers in
    this file test the result, which is true exactly when an exception
    was raised. *)
Definition maybeThrowIcuException (env : JNIEnv) (function : string)
    (status : UErrorCode) : bool * JNIEnv :=
  if U_SUCCESS status then (false, env)
  else (true, Throw env (IcuException function status)).

End Jni.
Export Jni.

(** ** The ICU types the bridge handles *)

Module Icu.

(** [UnicodeString(UChar ch)]: the one-unit string. *)
Definition UnicodeString_UChar (ch : jchar) : UnicodeString := [ch].

(** [U16_APPEND], as used by [UnicodeString(UChar32 ch)]: a code point up
    to U+FFFF is one unit, one up to U+10FFFF is a surrogate pair,
    anything else is an error and appends nothing. *)
Definition U16_APPEND (c : Z) : option (list Z) :=
  if (0 <=? c) && (c <=? 65535) then Some [c]
  else if (0 <=? c) && (c <=? 1114111) then
    Some [Z.shiftr c 10 + 55232; Z.lor (Z.land c 1023) 56320]
  else None.

(** [UnicodeString(UChar32 ch)]: empty when [ch] is not a code point. *)
Definition UnicodeString_UChar32 (ch : Z) : UnicodeString :=
  match U16_APPEND ch with
  | Some units => units
  | None => []
  end.

Definition U16_IS_LEAD (c : Z) : bool := Z.land c 4294966272 =? 55296.
Definition U16_IS_TRAIL (c : Z) : bool := Z.land c 4294966272 =? 56320.
Definition U16_GET_SUPPLEMENTARY (lead trail : Z) : Z :=
  Z.shiftl lead 10 + trail - (Z.shiftl 55296 10 + 56320 - 65536).

(** The code points of a string, read front to back as [U16_NEXT] does:
    a lead unit followed by a trail unit is one supplementary code
    point, every other unit stands for itself. *)
Fixpoint codePoints (s : UnicodeString) : list Z :=
  match s with
  | [] => []
  | c :: rest =>
      match rest with
      | c2 :: rest' =>
          if U16_IS_LEAD c && U16_IS_TRAIL c2
          then U16_GET_SUPPLEMENTARY c c2 :: codePoints rest'
          else c :: codePoints rest
      | [] => [c]
      end
  end.

(** [DecimalFormatSymbols::ENumberFormatSymbol]. *)
Inductive ENumberFormatSymbol : Type :=
| kDecimalSeparatorSymbol
| kGroupingSeparatorSymbol
| kPatternSeparatorSymbol
| kPercentSymbol
| kZeroDigitSymbol
| kDigitSymbol
| kMinusSignSymbol
| kPlusSignSymbol
| kCurrencySymbol
| kIntlCurrencySymbol
| kMonetarySeparatorSymbol
| kExponentialSymbol
| kPerMillSymbol
| kPadEscapeSymbol
| kInfinitySymbol
| kNaNSymbol
| kSignificantDigitSymbol
| kMonetaryGroupingSeparatorSymbol
| kOneDigitSymbol
| kTwoDigitSymbol
| kThreeDigitSymbol
| kFourDigitSymbol
| kFiveDigitSymbol
| kSixDigitSymbol
| kSevenDigitSymbol
| kEightDigitSymbol
| kNineDigitSymbol.

#[global] Instance ENumberFormatSymbol_eq_dec : EqDecision ENumberFormatSymbol.
Proof. solve_decision. Defined.

(** Modelled from the spec: ICU's [DecimalFormatSymbols] (declared in
    unicode/dcfmtsym.h, not among the sources) is the spec's SymbolTable:
    one string per symbol identifier, every slot defined, and
    [setSymbol] stores the value verbatim. *)
Definition DecimalFormatSymbols := ENumberFormatSymbol -> UnicodeString.

Definition setSymbol (result : DecimalFormatSymbols)
    (symbol : ENumberFormatSymbol) (value : UnicodeString)
  : DecimalFormatSymbols :=
  <[symbol := value]> result.

Definition getSymbol (symbols : DecimalFormatSymbols)
    (symbol : ENumberFormatSymbol) : UnicodeString :=
  symbols symbol.

(** The symbol that holds the glyph of decimal digit [d]. *)
Definition digitSymbol (d : Z) : ENumberFormatSymbol :=
  match d with
  | 1 => kOneDigitSymbol
  | 2 => kTwoDigitSymbol
  | 3 => kThreeDigitSymbol
  | 4 => kFourDigitSymbol
  | 5 => kFiveDigitSymbol
  | 6 => kSixDigitSymbol
  | 7 => kSevenDigitSymbol
  | 8 => kEightDigitSymbol
  | 9 => kNineDigitSymbol
  | _ => kZeroDigitSymbol
  end.

(** ICU's [ParsePosition]: the constructor takes the start index and
    clears the error index. *)
Record ParsePosition : Type :=
  { getIndex : Z; getErrorIndex : Z }.

Definition ParsePosition_ctor (index : Z) : ParsePosition :=
  {| getIndex := index; getErrorIndex := -1 |}.

(** [Formattable::Type]. *)
Inductive FormattableType : Type :=
| kDate | kDouble | kLong | kString | kArray | kInt64 | kObject.

(** A [Formattable] as the bridge reads it: its type tag and the answers
    of the accessors the bridge calls.  [getDouble_status] is the
    overload [getDouble(UErrorCode&)], whose status the bridge does not
    read; [getDecimalNumber] yields the decimal text together with the
    status it reports. *)
Record Formattable : Type :=
  { getType : FormattableType;
    getDouble : jdouble;
    getDouble_status : jdouble;
    getLong : Z;
    getInt64 : Z;
    getDecimalNumber : string * UErrorCode }.

End Icu.
Export Icu.

(** ** Java objects the bridge reads and writes *)

Module Java.

(** [java.text.ParsePosition], reached through the method ids
    [gPP_getIndex], [gPP_setIndex] and [gPP_setErrorIndex].  In Java an
    error index of -1 means that no error offset is recorded. *)
Record JParsePosition : Type :=
  { index : jint; errorIndex : jint }.

Definition gPP_getIndex (position : JParsePosition) : jint :=
  index position.

Definition gPP_setIndex (position : JParsePosition) (i : jint)
  : JParsePosition :=
  {| index := i; errorIndex := errorIndex position |}.

Definition gPP_setErrorIndex (position : JParsePosition) (i : jint)
  : JParsePosition :=
  {| index := index position; errorIndex := i |}.

(** The [java.lang.Number] objects [parse] can return: a boxed double, a
    boxed long, or a [java.math.BigDecimal] built from decimal text. *)
Inductive Number : Type :=
| Double (value : jdouble)
| Long (value : jlong)
| BigDecimal (text : string).

Definition doubleValueOf (value : jdouble) : Number := Double value.
Definition longValueOf (value : jlong) : Number := Long value.

End Java.
Export Java.

(** ** C strings *)

Module CString.

Definition byte_of (c : ascii) : Z := Z.of_N (N_of_ascii c).

(** [strncmp(s1, s2, n)] on NUL-terminated buffers: the end of a Rocq
    string is where the terminator sits.  The result is the difference
    of the first pair of bytes that differ, or zero. *)
Fixpoint strncmp (s1 s2 : string) (n : nat) {struct n} : Z :=
  match n with
  | O => 0
  | S n' =>
      match s1, s2 with
      | EmptyString, EmptyString => 0
      | EmptyString, String c2 _ => 0 - byte_of c2
      | String c1 _, EmptyString => byte_of c1
      | String c1 t1, String c2 t2 =>
          if byte_of c1 =? byte_of c2
          then if byte_of c1 =? 0 then 0 else strncmp t1 t2 n'
          else byte_of c1 - byte_of c2
      end
  end.

(** A string literal holds no NUL before its end. *)
Fixpoint no_nul (s : string) : Prop :=
  match s with
  | EmptyString => True
  | String c t => byte_of c <> 0 /\ no_nul t
  end.

End CString.
Export CString.

(** ** The native methods *)

(** The fourteen symbol arguments that [makeDecimalFormatSymbols],
    [setDecimalFormatSymbols] and [open] all take, in the order of the
    source. *)
Record SymbolArgs : Type :=
  { currencySymbol : jstring;
    decimalSeparator : jchar;
    digit : jchar;
    exponentSeparator : jstring;
    groupingSeparator : jchar;
    infinity : jstring;
    internationalCurrencySymbol : jstring;
    minusSign : jstring;
    monetaryDecimalSeparator : jchar;
    nan : jstring;
    patternSeparator : jchar;
    percent : jstring;
    perMill : jchar;
    zeroDigit : jchar }.

(** What a call of [parse] leaves behind: the returned reference ([None]
    is [NULL]), the [ParsePosition] object and the JNI environment. *)
Record ParseOutcome : Type :=
  { result : option Number;
    positionAfter : JParsePosition;
    envAfter : JNIEnv }.

Section Bridge.

(** *** What the bridge takes from outside this file *)

(** The compiled pattern state of an ICU [DecimalFormat]. *)
Variable PatternRules : Type.

(** Modelled from the spec: ICU's [DecimalFormat] (declared in
    unicode/decimfmt.h, not among the sources) is the spec's
    FormatInstance, which "owns one SymbolSet and one PatternRules". *)
Record DecimalFormat : Type :=
  { fSymbols : DecimalFormatSymbols; fRules : PatternRules }.

(** The pattern compiler run by ICU's constructor
    [DecimalFormat(pattern, symbolsToAdopt, parseError, status)]: the
    rules it leaves in the instance and the status it reports. *)
Variable DecimalFormat_compile :
  UnicodeString -> DecimalFormatSymbols -> PatternRules * UErrorCode.

(** ICU's [DecimalFormat::parse(text, result, parsePosition)]: the
    [Formattable] and the [ParsePosition] it leaves behind. *)
Variable DecimalFormat_parse :
  DecimalFormat -> UnicodeString -> ParsePosition ->
  Formattable * ParsePosition.

(** ICU's [applyPattern] ([false]) and [applyLocalizedPattern] ([true]):
    the instance they leave behind and the status they report; and ICU's
    [toPattern] ([false]) and [toLocalizedPattern] ([true]). *)
Variable DecimalFormat_applyPattern :
  bool -> DecimalFormat -> UnicodeString -> DecimalFormat * UErrorCode.
Variable DecimalFormat_toPattern : bool -> DecimalFormat -> UnicodeString.

(** The symbols of a default-constructed [DecimalFormatSymbols] (those
    of the default locale). *)
Variable locale_symbols : DecimalFormatSymbols.

(** The constructor of [ScopedJavaUnicodeString]. *)
Variable ScopedJavaUnicodeString_ctor :
  JNIEnv -> jstring -> ScopedJavaUnicodeString * JNIEnv.

(** Modelled from the spec: the constructor adopts the symbol set and
    compiles the initial pattern ("Created by compiling an initial
    pattern"). *)
Definition DecimalFormat_ctor (pattern : UnicodeString)
    (symbolsToAdopt : DecimalFormatSymbols) : DecimalFormat * UErrorCode :=
  let (rules, status) := DecimalFormat_compile pattern symbolsToAdopt in
  ({| fSymbols := symbolsToAdopt; fRules := rules |}, status).

(** Modelled from the spec: [adoptDecimalFormatSymbols] replaces the
    instance's symbol set ("setDecimalFormatSymbols(handle, full symbol
    set)"). *)
Definition adoptDecimalFormatSymbols (fmt : DecimalFormat)
    (symbolsToAdopt : DecimalFormatSymbols) : DecimalFormat :=
  {| fSymbols := symbolsToAdopt; fRules := fRules fmt |}.

(** *** makeDecimalFormatSymbols *)

Definition makeDecimalFormatSymbols (env : JNIEnv) (a : SymbolArgs)
  : DecimalFormatSymbols * JNIEnv :=
  let (currencySymbol, env) := ScopedJavaUnicodeString_ctor env (currencySymbol a) in
  let (exponentSeparator, env) := ScopedJavaUnicodeString_ctor env (exponentSeparator a) in
  let (infinity, env) := ScopedJavaUnicodeString_ctor env (infinity a) in
  let (internationalCurrencySymbol, env) :=
    ScopedJavaUnicodeString_ctor env (internationalCurrencySymbol a) in
  let (nan, env) := ScopedJavaUnicodeString_ctor env (nan a) in
  let (minusSign, env) := ScopedJavaUnicodeString_ctor env (minusSign a) in
  let (percent, env) := ScopedJavaUnicodeString_ctor env (percent a) in
  let groupingSeparator := UnicodeString_UChar (groupingSeparator a) in
  let result := locale_symbols in
  let result := setSymbol result kCurrencySymbol (unicodeString currencySymbol) in
  let result := setSymbol result kDecimalSeparatorSymbol (UnicodeString_UChar (decimalSeparator a)) in
  let result := setSymbol result kDigitSymbol (UnicodeString_UChar (digit a)) in
  let result := setSymbol result kExponentialSymbol (unicodeString exponentSeparator) in
  let result := setSymbol result kGroupingSeparatorSymbol groupingSeparator in
  let result := setSymbol result kMonetaryGroupingSeparatorSymbol groupingSeparator in
  let result := setSymbol result kInfinitySymbol (unicodeString infinity) in
  let result := setSymbol result kIntlCurrencySymbol (unicodeString internationalCurrencySymbol) in
  let result := setSymbol result kMinusSignSymbol (unicodeString minusSign) in
  let result := setSymbol result kMonetarySeparatorSymbol (UnicodeString_UChar (monetaryDecimalSeparator a)) in
  let result := setSymbol result kNaNSymbol (unicodeString nan) in
  let result := setSymbol result kPatternSeparatorSymbol (UnicodeString_UChar (patternSeparator a)) in
  let result := setSymbol result kPercentSymbol (unicodeString percent) in
  let result := setSymbol result kPerMillSymbol (UnicodeString_UChar (perMill a)) in
  let result := setSymbol result kZeroDigitSymbol (UnicodeString_UChar32 (zeroDigit a + 0)) in
  let result := setSymbol result kOneDigitSymbol (UnicodeString_UChar32 (zeroDigit a + 1)) in
  let result := setSymbol result kTwoDigitSymbol (UnicodeString_UChar32 (zeroDigit a + 2)) in
  let result := setSymbol result kThreeDigitSymbol (UnicodeString_UChar32 (zeroDigit a + 3)) in
  let result := setSymbol result kFourDigitSymbol (UnicodeString_UChar32 (zeroDigit a + 4)) in
  let result := setSymbol result kFiveDigitSymbol (UnicodeString_UChar32 (zeroDigit a + 5)) in
  let result := setSymbol result kSixDigitSymbol (UnicodeString_UChar32 (zeroDigit a + 6)) in
  let result := setSymbol result kSevenDigitSymbol (UnicodeString_UChar32 (zeroDigit a + 7)) in
  let result := setSymbol result kEightDigitSymbol (UnicodeString_UChar32 (zeroDigit a + 8)) in
  let result := setSymbol result kNineDigitSymbol (UnicodeString_UChar32 (zeroDigit a + 9)) in
  (result, env).

(** *** setDecimalFormatSymbols *)

Definition NativeDecimalFormat_setDecimalFormatSymbols (env : JNIEnv)
    (fmt : DecimalFormat) (a : SymbolArgs) : DecimalFormat * JNIEnv :=
  let (symbols, env) := makeDecimalFormatSymbols env a in
  (adoptDecimalFormatSymbols fmt symbols, env).

(** *** open *)

(** The returned handle is the address of the new instance; [None] is
    the null address.  [new_succeeds] tells whether [new DecimalFormat]
    obtained memory: when it does not, the constructor does not run and
    the status stays [U_ZERO_ERROR]. *)
Definition NativeDecimalFormat_open (new_succeeds : bool) (env : JNIEnv)
    (pattern0 : jstring) (a : SymbolArgs) : option DecimalFormat * JNIEnv :=
  let status := U_ZERO_ERROR in
  let (pattern, env) := ScopedJavaUnicodeString_ctor env pattern0 in
  if negb (valid pattern) then (None, env)
  else
    let (symbols, env) := makeDecimalFormatSymbols env a in
    let (fmt, status) :=
      if new_succeeds
      then let (obj, status) := DecimalFormat_ctor (unicodeString pattern) symbols in
           (Some obj, status)
      else (None, status) in
    let (_, env) := maybeThrowIcuException env "DecimalFormat::DecimalFormat" status in
    (fmt, env).

(** The status the ICU constructor reports for [pattern0] under the
    symbols built from [a]. *)
Definition open_status (env : JNIEnv) (pattern0 : jstring) (a : SymbolArgs)
  : UErrorCode :=
  let (pattern, env) := ScopedJavaUnicodeString_ctor env pattern0 in
  let (symbols, _) := makeDecimalFormatSymbols env a in
  snd (DecimalFormat_ctor (unicodeString pattern) symbols).

(** *** applyPatternImpl and toPatternImpl *)

(** The instance after the call and the environment.  A null pattern
    leaves the instance alone. *)
Definition NativeDecimalFormat_applyPatternImpl (env : JNIEnv)
    (fmt : DecimalFormat) (localized : bool) (pattern0 : jstring)
  : DecimalFormat * JNIEnv :=
  let (pattern, env) := ScopedJavaUnicodeString_ctor env pattern0 in
  if negb (valid pattern) then (fmt, env)
  else
    let status := U_ZERO_ERROR in
    let '(function, (fmt, status)) :=
      if localized
      then ("DecimalFormat::applyLocalizedPattern"%string,
            DecimalFormat_applyPattern true fmt (unicodeString pattern))
      else ("DecimalFormat::applyPattern"%string,
            DecimalFormat_applyPattern false fmt (unicodeString pattern)) in
    let (_, env) := maybeThrowIcuException env function status in
    (fmt, env).

Definition NativeDecimalFormat_toPatternImpl (fmt : DecimalFormat)
    (localized : bool) : jstring :=
  let pattern :=
    if localized
    then DecimalFormat_toPattern true fmt
    else DecimalFormat_toPattern false fmt in
  Some pattern.

(** *** parse *)

Definition newBigDecimal (value : string) (len : nat) : Number :=
  BigDecimal (substring 0 len value).

(** The tail of [NativeDecimalFormat_parse] (from [if (parseBigDecimal)]
    on): the object built from the parsed [Formattable]. *)
Definition parse_box (res : Formattable) (parseBigDecimal : bool)
  : option Number :=
  if parseBigDecimal then
    let (str, status) := getDecimalNumber res in
    if U_SUCCESS status then
      let len := String.length str in
      let data := str in
      if (strncmp data "NaN" 3 =? 0) ||
         (strncmp data "Inf" 3 =? 0) ||
         (strncmp data "-Inf" 4 =? 0)
      then let resultDouble := getDouble_status res in
           Some (doubleValueOf resultDouble)
      else Some (newBigDecimal data len)
    else None
  else
    match getType res with
    | kDouble => Some (doubleValueOf (getDouble res))
    | kLong => Some (longValueOf (getLong res))
    | kInt64 => Some (longValueOf (getInt64 res))
    | _ => None
    end.

Definition NativeDecimalFormat_parse (env : JNIEnv) (fmt : DecimalFormat)
    (text : jstring) (position : JParsePosition) (parseBigDecimal : bool)
  : ParseOutcome :=
  let (src, env) := ScopedJavaUnicodeString_ctor env text in
  if negb (valid src)
  then {| result := None; positionAfter := position; envAfter := env |}
  else
    let parsePos := gPP_getIndex position in
    if (parsePos <? 0) || (parsePos >? GetStringLength text)
    then {| result := None; positionAfter := position; envAfter := env |}
    else
      let (res, pp) :=
        DecimalFormat_parse fmt (unicodeString src) (ParsePosition_ctor parsePos) in
      if getErrorIndex pp =? -1
      then {| result := parse_box res parseBigDecimal;
              positionAfter := gPP_setIndex position (getIndex pp);
              envAfter := env |}
      else {| result := None;
              positionAfter := gPP_setErrorIndex position (getErrorIndex pp);
              envAfter := env |}.

End Bridge.

Arguments fSymbols {PatternRules} _.
Arguments fRules {PatternRules} _.
Arguments DecimalFormat_ctor {PatternRules} _ _ _.
Arguments adoptDecimalFormatSymbols {PatternRules} _ _.
Arguments NativeDecimalFormat_setDecimalFormatSymbols {PatternRules} _ _ _ _ _.
Arguments NativeDecimalFormat_open {PatternRules} _ _ _ _ _ _ _.
Arguments open_status {PatternRules} _ _ _ _ _ _.
Arguments NativeDecimalFormat_parse {PatternRules} _ _ _ _ _ _ _.
Arguments NativeDecimalFormat_applyPatternImpl {PatternRules} _ _ _ _ _ _.
Arguments NativeDecimalFormat_toPatternImpl {PatternRules} _ _ _.

(** ** Properties stated of the bridge *)

(** The decimal texts that [parse] answers with a double: those that begin
    with "NaN", "Inf" or "-Inf". *)
Definition special_text (str : string) : bool :=
  String.prefix "NaN" str || String.prefix "Inf" str || String.prefix "-Inf" str.

(** Both grouping symbols hold the one-unit string of [g]. *)
Definition grouping_symbols_agree (g : jchar) (symbols : DecimalFormatSymbols)
  : Prop :=
  getSymbol symbols kMonetaryGroupingSeparatorSymbol
    = getSymbol symbols kGroupingSeparatorSymbol
  /\ getSymbol symbols kGroupingSeparatorSymbol = UnicodeString_UChar g.

(** The glyph of every decimal digit [d] is the code point [z + d]. *)
Definition digit_glyphs_from (z : Z) (symbols : DecimalFormatSymbols) : Prop :=
  forall d : Z, 0 <= d <= 9 ->
    getSymbol symbols (digitSymbol d) = UnicodeString_UChar32 (z + d)
    /\ codePoints (getSymbol symbols (digitSymbol d)) = [z + d].

(** ** Properties of a parse outcome *)

(** A value together with an end offset written into the position. *)
Definition success_shape (before : JParsePosition) (o : ParseOutcome) : Prop :=
  exists (v : Number) (e : jint),
    result o = Some v /\ positionAfter o = gPP_setIndex before e.

(** No value, and an error offset (anything but -1) written into the
    position. *)
Definition failure_shape (before : JParsePosition) (o : ParseOutcome) : Prop :=
  exists e : jint,
    e <> -1 /\ result o = None /\ positionAfter o = gPP_setErrorIndex before e.

(** What [open] hands to its Java caller counts as a failure when it is an
    exception or the null handle. *)
Definition open_failed {PatternRules : Type}
    (r : JavaResult (option (DecimalFormat PatternRules))) : Prop :=
  match r with
  | Throws _ => True
  | Returns None => True
  | Returns (Some _) => False
  end.

(** The [Formattable]s that [parse_box] can box: with exact decimals
    requested, those whose decimal text is available; otherwise those of
    type double, long or int64. *)
Definition boxable (res : Formattable) (parseBigDecimal : bool) : bool :=
  if parseBigDecimal then U_SUCCESS (snd (getDecimalNumber res))
  else match getType res with
       | kDouble | kLong | kInt64 => true
       | _ => false
       end.

(** ** Stand-ins for the outside world

    Closed instances of the section variables, used to run the bridge on
    concrete inputs.  A scripted engine answers every call with the values
    it was given; it does not imitate ICU. *)

Module Scripted.

Definition Rules := unit.

Definition compile (status : UErrorCode)
  : UnicodeString -> DecimalFormatSymbols -> Rules * UErrorCode :=
  fun _ _ => (tt, status).

Definition parse (res : Formattable) (pp : ParsePosition)
  : DecimalFormat Rules -> UnicodeString -> ParsePosition ->
    Formattable * ParsePosition :=
  fun _ _ _ => (res, pp).

(** A string helper that views a non-null string as itself and raises
    [NullPointerException] for [null]. *)
Definition scoped (env : JNIEnv) (s : jstring)
  : ScopedJavaUnicodeString * JNIEnv :=
  match s with
  | Some chars => ({| valid := true; unicodeString := chars |}, env)
  | None => ({| valid := false; unicodeString := [] |},
             Throw env NullPointerException)
  end.

Definition no_symbols : DecimalFormatSymbols := fun _ => [].

Definition env0 : JNIEnv := {| pending := None |}.

(** The symbols of an English locale: "$" "." "#" "E" "," U+221E "USD"
    "-" "." "NaN" ";" "%" U+2030 "0". *)
Definition english : SymbolArgs :=
  {| currencySymbol := Some [36];
     decimalSeparator := 46;
     digit := 35;
     exponentSeparator := Some [69];
     groupingSeparator := 44;
     infinity := Some [8734];
     internationalCurrencySymbol := Some [85; 83; 68];
     minusSign := Some [45];
     monetaryDecimalSeparator := 46;
     nan := Some [78; 97; 78];
     patternSeparator := 59;
     percent := Some [37];
     perMill := 8240;
     zeroDigit := 48 |}.

Definition fmt0 : DecimalFormat Rules :=
  {| fSymbols := no_symbols; fRules := tt |}.

(** The answer of an engine that read "123" and stopped at offset 3. *)
Definition res123 : Formattable :=
  {| getType := kLong;
     getDouble := S754_finite false 123 0;
     getDouble_status := S754_finite false 123 0;
     getLong := 123;
     getInt64 := 123;
     getDecimalNumber := ("123"%string, U_ZERO_ERROR) |}.

(** The answer of an engine that read the infinity sign. *)
Definition resInf : Formattable :=
  {| getType := kDouble;
     getDouble := S754_infinity false;
     getDouble_status := S754_infinity false;
     getLong := 2147483647;
     getInt64 := 9223372036854775807;
     getDecimalNumber := ("Infinity"%string, U_ZERO_ERROR) |}.

Definition stopped_at (i : Z) : ParsePosition :=
  {| getIndex := i; getErrorIndex := -1 |}.

Definition failed_at (start i : Z) : ParsePosition :=
  {| getIndex := start; getErrorIndex := i |}.

(** "123abc" and ",123" as UTF-16. *)
Definition text_123abc : UnicodeString := [49; 50; 51; 97; 98; 99].
Definition text_comma123 : UnicodeString := [44; 49; 50; 51].

(** The pattern texts "#,##0" and "0.0.0". *)
Definition pattern_grouped : UnicodeString := [35; 44; 35; 35; 48].
Definition pattern_two_points : UnicodeString := [48; 46; 48; 46; 48].

(** A status in ICU's range of pattern errors. *)
Definition pattern_error : UErrorCode := 65793.

(** A position freshly made by [new ParsePosition(i)]. *)
Definition fresh (i : jint) : JParsePosition :=
  {| index := i; errorIndex := -1 |}.

End Scripted.

(** ** The native methods for formatting, attributes and symbols *)

(** Two more codes of ICU's [UErrorCode]. *)
Definition U_BUFFER_OVERFLOW_ERROR : UErrorCode := 15.
Definition U_STRING_NOT_TERMINATED_WARNING : UErrorCode := -124.

(** ICU's [FieldPosition], as [formatResult] reads it. *)
Record FieldPosition : Type :=
  { getField : Z; getBeginIndex : Z; getEndIndex : Z }.

(** The value given to [format<T>]: [T] is [int64_t], [double] or
    [StringPiece]. *)
Inductive FormatValue : Type :=
| Int64Value (value : jlong)
| DoubleValue (value : jdouble)
| StringPieceValue (value : string).

(** The Java [FieldPositionIterator] object: the array last given to its
    [setData] method ([None] is [null]). *)
Record JFieldPositionIterator : Type := { fpiData : option (list Z) }.

(** [env->CallVoidMethod(javaFieldPositionIterator, gFPI_setData, javaData)]. *)
Definition gFPI_setData (javaFieldPositionIterator : option JFieldPositionIterator)
    (javaData : option (list Z)) : option JFieldPositionIterator :=
  match javaFieldPositionIterator with
  | Some _ => Some {| fpiData := javaData |}
  | None => None
  end.

(** What a formatting call leaves behind: the returned [jcharArray]
    ([None] is [NULL]), the Java iterator and the JNI environment. *)
Record FormatOutcome : Type :=
  { chars : option UnicodeString;
    iteratorAfter : option JFieldPositionIterator;
    formatEnv : JNIEnv }.

(** [StringPiece] built from a C string: the bytes up to the terminator. *)
Fixpoint StringPiece_ctor (str : string) : string :=
  match str with
  | EmptyString => EmptyString
  | String c rest =>
      if byte_of c =? 0 then EmptyString else String c (StringPiece_ctor rest)
  end.

(** [env->NewString(chars, charCount)]: the first [charCount] units. *)
Definition NewString (chars : UnicodeString) (charCount : Z) : jstring :=
  Some (firstn (Z.to_nat charCount) chars).

Section Formatting.

(** The JNI allocation calls of [formatResult]: whether an object was
    obtained, and the environment afterwards. *)
Variable NewIntArray : JNIEnv -> Z -> bool * JNIEnv.
Variable ScopedIntArrayRW_get : JNIEnv -> bool * JNIEnv.
Variable NewCharArray : JNIEnv -> Z -> bool * JNIEnv.

(** The loop [while (fpi->next(fp))] of [formatResult]: [fpi] holds the
    positions still to come, [data] is the vector filled so far. *)
Fixpoint collect (fpi : list FieldPosition) (data : list Z) : list Z :=
  match fpi with
  | [] => data
  | fp :: rest =>
      let data := data ++ [getField fp] in
      let data := data ++ [getBeginIndex fp] in
      let data := data ++ [getEndIndex fp] in
      collect rest data
  end.

(** The last four lines of [formatResult]: the text copied into a new
    [jcharArray]. *)
Definition copyChars (env : JNIEnv) (s : UnicodeString)
    (javaFieldPositionIterator : option JFieldPositionIterator)
  : FormatOutcome :=
  let (result, env) := NewCharArray env (Z.of_nat (length s)) in
  {| chars := if result then Some s else None;
     iteratorAfter := javaFieldPositionIterator;
     formatEnv := env |}.

Definition formatResult (env : JNIEnv) (s : UnicodeString)
    (fpi : option (list FieldPosition))
    (javaFieldPositionIterator : option JFieldPositionIterator)
  : FormatOutcome :=
  match fpi with
  | Some positions =>
      let data := collect positions [] in
      match data with
      | [] =>
          copyChars env s (gFPI_setData javaFieldPositionIterator None)
      | _ :: _ =>
          let (javaData, env) := NewIntArray env (Z.of_nat (length data)) in
          if negb javaData
          then {| chars := None;
                  iteratorAfter := javaFieldPositionIterator;
                  formatEnv := env |}
          else
            let (ints, env) := ScopedIntArrayRW_get env in
            if negb ints
            then {| chars := None;
                    iteratorAfter := javaFieldPositionIterator;
                    formatEnv := env |}
            else
              copyChars env s
                (gFPI_setData javaFieldPositionIterator (Some data))
      end
  | None => copyChars env s javaFieldPositionIterator
  end.

Context {PatternRules : Type}.

(** ICU's [DecimalFormat::format(value, s, fpi, status)]: the text
    appended to the empty [s], the field positions left in the native
    iterator (read only when [fpi] is not [NULL]; the flag says whether it
    is), and the status. *)
Variable DecimalFormat_format :
  DecimalFormat PatternRules -> FormatValue -> bool ->
  UnicodeString * list FieldPosition * UErrorCode.

(** The constructor of [ScopedUtfChars] and its [c_str()] ([None] is
    [NULL]). *)
Variable ScopedUtfChars_ctor : JNIEnv -> jstring -> option string * JNIEnv.

Definition format (env : JNIEnv) (fmt : DecimalFormat PatternRules)
    (javaFieldPositionIterator : option JFieldPositionIterator)
    (value : FormatValue) : FormatOutcome :=
  let status := U_ZERO_ERROR in
  let fpi_given :=
    match javaFieldPositionIterator with Some _ => true | None => false end in
  let '(s, positions, status) := DecimalFormat_format fmt value fpi_given in
  let fpi := if fpi_given then Some positions else None in
  let (thrown, env) := maybeThrowIcuException env "DecimalFormat::format" status in
  if thrown
  then {| chars := None;
          iteratorAfter := javaFieldPositionIterator;
          formatEnv := env |}
  else formatResult env s fpi javaFieldPositionIterator.

Definition NativeDecimalFormat_formatLong (env : JNIEnv)
    (fmt : DecimalFormat PatternRules) (value : jlong)
    (javaFieldPositionIterator : option JFieldPositionIterator)
  : FormatOutcome :=
  format env fmt javaFieldPositionIterator (Int64Value value).

Definition NativeDecimalFormat_formatDouble (env : JNIEnv)
    (fmt : DecimalFormat PatternRules) (value : jdouble)
    (javaFieldPositionIterator : option JFieldPositionIterator)
  : FormatOutcome :=
  format env fmt javaFieldPositionIterator (DoubleValue value).

Definition NativeDecimalFormat_formatDigitList (env : JNIEnv)
    (fmt : DecimalFormat PatternRules) (value : jstring)
    (javaFieldPositionIterator : option JFieldPositionIterator)
  : FormatOutcome :=
  let (chars, env) := ScopedUtfChars_ctor env value in
  match chars with
  | None => {| chars := None;
               iteratorAfter := javaFieldPositionIterator;
               formatEnv := env |}
  | Some c_str =>
      let sp := StringPiece_ctor c_str in
      format env fmt javaFieldPositionIterator (StringPieceValue sp)
  end.

End Formatting.

Section Attributes.

Context {PatternRules : Type}.

(** ICU's [unum_getTextAttribute(fmt, attr, result, resultLength, status)]
    entered with a clear status: the contents of the buffer afterwards,
    the returned count and the status. *)
Variable unum_getTextAttribute :
  DecimalFormat PatternRules -> jint -> Z -> UnicodeString * Z * UErrorCode.

(** ICU's [unum_setSymbol] and [unum_setTextAttribute], entered with a
    clear status: the instance afterwards and the status. *)
Variable unum_setSymbol :
  DecimalFormat PatternRules -> jint -> UnicodeString -> Z ->
  DecimalFormat PatternRules * UErrorCode.
Variable unum_setTextAttribute :
  DecimalFormat PatternRules -> jint -> UnicodeString -> Z ->
  DecimalFormat PatternRules * UErrorCode.

(** The constructor of [ScopedStringChars] and its [get()] ([None] is
    [NULL]); [size()] is the length of the characters. *)
Variable ScopedStringChars_ctor :
  JNIEnv -> jstring -> option UnicodeString * JNIEnv.

Definition NativeDecimalFormat_setSymbol (env : JNIEnv)
    (fmt : DecimalFormat PatternRules) (javaSymbol : jint) (javaValue : jstring)
  : DecimalFormat PatternRules * JNIEnv :=
  let (value, env) := ScopedStringChars_ctor env javaValue in
  match value with
  | None => (fmt, env)
  | Some value =>
      let status := U_ZERO_ERROR in
      let symbol := javaSymbol in
      let (fmt, status) :=
        unum_setSymbol fmt symbol value (Z.of_nat (length value)) in
      let (_, env) := maybeThrowIcuException env "unum_setSymbol" status in
      (fmt, env)
  end.

Definition NativeDecimalFormat_setTextAttribute (env : JNIEnv)
    (fmt : DecimalFormat PatternRules) (javaAttr : jint) (javaValue : jstring)
  : DecimalFormat PatternRules * JNIEnv :=
  let (value, env) := ScopedStringChars_ctor env javaValue in
  match value with
  | None => (fmt, env)
  | Some value =>
      let status := U_ZERO_ERROR in
      let attr := javaAttr in
      let (fmt, status) :=
        unum_setTextAttribute fmt attr value (Z.of_nat (length value)) in
      let (_, env) := maybeThrowIcuException env "unum_setTextAttribute" status in
      (fmt, env)
  end.

Definition NativeDecimalFormat_getTextAttribute (env : JNIEnv)
    (fmt : DecimalFormat PatternRules) (javaAttr : jint) : jstring * JNIEnv :=
  let status := U_ZERO_ERROR in
  let attr := javaAttr in
  let chars : UnicodeString := [] in
  let charCount := 0 in
  let '(_, desiredCount, status) :=
    unum_getTextAttribute fmt attr charCount in
  let '(chars, charCount, status) :=
    if status =? U_BUFFER_OVERFLOW_ERROR
    then
      let status := U_ZERO_ERROR in
      let charCount := desiredCount + 1 in
      unum_getTextAttribute fmt attr charCount
    else (chars, charCount, status) in
  let (thrown, env) := maybeThrowIcuException env "unum_getTextAttribute" status in
  if thrown then (None, env) else (NewString chars charCount, env).

End Attributes.

(** ICU's preflighting convention for a function that writes the text
    [text] into a buffer of [capacity] units: the text and a terminator
    when both fit, the text alone with a warning when only it fits,
    nothing but the needed length and [U_BUFFER_OVERFLOW_ERROR]
    otherwise. *)
Definition preflight (text : UnicodeString) (capacity : Z)
  : UnicodeString * Z * UErrorCode :=
  let len := Z.of_nat (length text) in
  if len <? capacity then (text, len, U_ZERO_ERROR)
  else if len =? capacity then (text, len, U_STRING_NOT_TERMINATED_WARNING)
  else ([], len, U_BUFFER_OVERFLOW_ERROR).

(** The triples [formatResult] hands to [setData], written at once. *)
Definition triples (positions : list FieldPosition) : list Z :=
  flat_map (fun fp => [getField fp; getBeginIndex fp; getEndIndex fp]) positions.

(** The array [formatResult] gives to [setData]: [null] when there is no
    field, the triples otherwise. *)
Definition javaData_of (positions : list FieldPosition) : option (list Z) :=
  match positions with
  | [] => None
  | _ :: _ => Some (triples positions)
  end.

(** What the Java iterator holds once [formatResult] has reached its
    [setData] call (or has none to make). *)
Definition iterator_done (fpi : option (list FieldPosition))
    (javaFieldPositionIterator : option JFieldPositionIterator)
  : option JFieldPositionIterator :=
  match fpi with
  | Some positions =>
      gFPI_setData javaFieldPositionIterator (javaData_of positions)
  | None => javaFieldPositionIterator
  end.

(** More stand-ins, for the methods above. *)

Module ScriptedMore.

Definition always (env : JNIEnv) : bool * JNIEnv := (true, env).
Definition never (env : JNIEnv) : bool * JNIEnv := (false, env).
Definition alloc_always (env : JNIEnv) (n : Z) : bool * JNIEnv := (true, env).
Definition alloc_never (env : JNIEnv) (n : Z) : bool * JNIEnv := (false, env).

(** "1,234" with its fields: integer 0..5 and grouping separator 1..2
    (ICU numbers the integer field 0 and the grouping separator 6). *)
Definition text_1234 : UnicodeString := [49; 44; 50; 51; 52].
Definition fields_1234 : list FieldPosition :=
  [ {| getField := 0; getBeginIndex := 0; getEndIndex := 5 |};
    {| getField := 6; getBeginIndex := 1; getEndIndex := 2 |} ].

Definition format_scripted (s : UnicodeString) (positions : list FieldPosition)
    (status : UErrorCode)
  : DecimalFormat Scripted.Rules -> FormatValue -> bool ->
    UnicodeString * list FieldPosition * UErrorCode :=
  fun _ _ _ => (s, positions, status).

Definition fresh_iterator : JFieldPositionIterator := {| fpiData := None |}.

(** An attribute reader that follows [preflight] for one text. *)
Definition text_attribute (text : UnicodeString)
  : DecimalFormat Scripted.Rules -> jint -> Z -> UnicodeString * Z * UErrorCode :=
  fun _ _ capacity => preflight text capacity.

(** An attribute reader that rejects the attribute. *)
Definition unsupported_attribute
  : DecimalFormat Scripted.Rules -> jint -> Z -> UnicodeString * Z * UErrorCode :=
  fun _ _ _ => ([], -1, 16).

Definition chars_of (env : JNIEnv) (s : jstring)
  : option UnicodeString * JNIEnv :=
  match s with
  | Some units => (Some units, env)
  | None => (None, Throw env NullPointerException)
  end.

Definition set_scripted (status : UErrorCode)
  : DecimalFormat Scripted.Rules -> jint -> UnicodeString -> Z ->
    DecimalFormat Scripted.Rules * UErrorCode :=
  fun fmt _ value _ =>
    ({| fSymbols := fun _ => value; fRules := fRules fmt |}, status).

Definition apply_scripted (status : UErrorCode)
  : bool -> DecimalFormat Scripted.Rules -> UnicodeString ->
    DecimalFormat Scripted.Rules * UErrorCode :=
  fun _ fmt _ => (fmt, status).

(** A byte helper that yields the given bytes for every string. *)
Definition utf_chars (bytes : option string)
  : JNIEnv -> jstring -> option string * JNIEnv :=
  fun env _ => (bytes, env).

(** An engine that answers like [Scripted.parse res123 (stopped_at 3)] on a
    fresh ICU position and refuses otherwise. *)
Definition parse_if_fresh
  : DecimalFormat Scripted.Rules -> UnicodeString -> ParsePosition ->
    Formattable * ParsePosition :=
  fun _ _ pp =>
    if getErrorIndex pp =? -1
    then (Scripted.res123, Scripted.stopped_at 3)
    else (Scripted.res123, Scripted.failed_at 0 0).

(** Symbols whose zero digit is the last [jchar], U+FFFF. *)
Definition top_zero : SymbolArgs :=
  {| currencySymbol := Some [36];
     decimalSeparator := 46;
     digit := 35;
     exponentSeparator := Some [69];
     groupingSeparator := 44;
     infinity := Some [8734];
     internationalCurrencySymbol := Some [85; 83; 68];
     minusSign := Some [45];
     monetaryDecimalSeparator := 164;
     nan := Some [78; 97; 78];
     patternSeparator := 59;
     percent := Some [37];
     perMill := 8240;
     zeroDigit := 65535 |}.

(** A locale whose plus sign is "+". *)
Definition plus_locale : DecimalFormatSymbols :=
  fun symbol => match symbol with kPlusSignSymbol => [43] | _ => [] end.

(** The answer of an engine that produced a string, which [parse] cannot
    box. *)
Definition resString : Formattable :=
  {| getType := kString;
     getDouble := S754_zero false;
     getDouble_status := S754_zero false;
     getLong := 0;
     getInt64 := 0;
     getDecimalNumber := (""%string, 3) |}.

End ScriptedMore.

(** ** UTF-16: a code point survives [UnicodeString(UChar32)] *)

Section Utf16.

Lemma land_high_mask (x : Z) :
  Z.land x 4294966272 = (x / 1024) mod 4194304 * 1024.
Proof.
  change 4294966272 with (Z.shiftl (Z.ones 22) 10).
  change 1024 with (2 ^ 10). change 4194304 with (2 ^ 22).
  rewrite <- (Z.shiftl_mul_pow2 _ 10) by lia.
  rewrite <- (Z.land_ones _ 22) by lia.
  rewrite <- (Z.shiftr_div_pow2 x 10) by lia.
  apply Z.bits_inj'. intros i Hi.
  destruct (Z.ltb_spec i 10) as [Hlt | Hge].
  - rewrite Z.land_spec, !Z.shiftl_spec_low by lia.
    apply andb_false_r.
  - rewrite Z.land_spec, !Z.shiftl_spec_high by lia.
    rewrite Z.land_spec, Z.shiftr_spec by lia.
    replace (i - 10 + 10) with i by lia. reflexivity.
Qed.

Lemma lor_trail_base (r : Z) :
  0 <= r < 1024 -> Z.lor r 56320 = r + 56320.
Proof.
  intros Hr.
  assert (Hdisj : Z.land r 56320 = 0).
  { change 56320 with (Z.shiftl 55 10).
    apply Z.bits_inj'. intros i Hi. rewrite Z.land_spec, Z.bits_0.
    destruct (Z.ltb_spec i 10) as [Hlt | Hge].
    - rewrite Z.shiftl_spec_low by lia. apply andb_false_r.
    - rewrite (Z.bits_above_log2 r i); [reflexivity | lia |].
      destruct (Z.eq_dec r 0) as [-> | Hnz]; [simpl; lia |].
      apply Z.lt_le_trans with 10; [| lia].
      apply Z.log2_lt_pow2; lia. }
  rewrite <- Z.lxor_lor by exact Hdisj.
  symmetry. apply Z.add_nocarry_lxor. exact Hdisj.
Qed.

Lemma U16_IS_LEAD_range (c : Z) :
  55296 <= c <= 56319 -> U16_IS_LEAD c = true.
Proof.
  intros Hc. unfold U16_IS_LEAD. rewrite land_high_mask.
  assert (c / 1024 = 54) as -> by (symmetry; apply Z.div_unique with (c - 55296); lia).
  reflexivity.
Qed.

Lemma U16_IS_TRAIL_range (c : Z) :
  56320 <= c <= 57343 -> U16_IS_TRAIL c = true.
Proof.
  intros Hc. unfold U16_IS_TRAIL. rewrite land_high_mask.
  assert (c / 1024 = 55) as -> by (symmetry; apply Z.div_unique with (c - 56320); lia).
  reflexivity.
Qed.

(** Decoding what [UnicodeString(UChar32 c)] stores gives back [c], for
    every [c] from 0 to U+10FFFF (an unpaired surrogate included, which
    is stored as itself). *)
Lemma codePoints_UnicodeString_UChar32 (c : Z) :
  0 <= c <= 1114111 -> codePoints (UnicodeString_UChar32 c) = [c].
Proof.
  intros Hc. unfold UnicodeString_UChar32, U16_APPEND.
  destruct (Z.leb_spec c 65535) as [Hbmp | Hsup].
  - replace (0 <=? c) with true by (symmetry; apply Z.leb_le; lia).
    reflexivity.
  - replace (0 <=? c) with true by (symmetry; apply Z.leb_le; lia).
    replace (c <=? 1114111) with true by (symmetry; apply Z.leb_le; lia).
    cbn [andb codePoints].
    rewrite Z.shiftr_div_pow2 by lia.
    change (Z.land c 1023) with (Z.land c (Z.ones 10)).
    rewrite Z.land_ones by lia.
    change (2 ^ 10) with 1024.
    pose proof (Z.mod_pos_bound c 1024 ltac:(lia)) as Hr.
    pose proof (Z.div_mod c 1024 ltac:(lia)) as Hdm.
    rewrite lor_trail_base by exact Hr.
    rewrite U16_IS_LEAD_range by lia.
    rewrite U16_IS_TRAIL_range by lia.
    cbn [andb]. unfold U16_GET_SUPPLEMENTARY.
    rewrite Z.shiftl_mul_pow2 by lia. change (2 ^ 10) with 1024.
    change (Z.shiftl 55296 10) with 56623104.
    f_equal. lia.
Qed.

End Utf16.

(** ** C strings: [strncmp] against a literal is a prefix test *)

Section StrncmpFacts.

Lemma byte_of_inj (a b : ascii) : byte_of a = byte_of b -> a = b.
Proof.
  unfold byte_of. intros H. apply N2Z.inj in H.
  rewrite <- (ascii_N_embedding a), <- (ascii_N_embedding b).
  now rewrite H.
Qed.

Lemma strncmp_literal (lit : string) :
  no_nul lit ->
  forall data : string,
    (strncmp data lit (String.length lit) =? 0) = String.prefix lit data.
Proof.
  induction lit as [| a lit IH]; intros Hlit data.
  - destruct data; reflexivity.
  - destruct Hlit as [Ha Hlit].
    destruct data as [| b data]; cbn [String.length strncmp String.prefix].
    + apply Z.eqb_neq. lia.
    + destruct (Z.eqb_spec (byte_of b) (byte_of a)) as [Heq | Hne].
      * apply byte_of_inj in Heq. subst b.
        destruct (Z.eqb_spec (byte_of a) 0) as [H0 | _]; [contradiction |].
        destruct (ascii_dec a a) as [_ | Hn]; [| contradiction].
        apply IH. exact Hlit.
      * destruct (ascii_dec a b) as [-> | _]; [contradiction |].
        apply Z.eqb_neq. lia.
Qed.

Lemma substring_whole (s : string) : substring 0 (String.length s) s = s.
Proof. induction s as [| c s IH]; simpl; [reflexivity | now rewrite IH]. Qed.

End StrncmpFacts.

(** ** The symbol table built from the Java arguments *)

Section BridgeFacts.

Context {PatternRules : Type}.
Variable compile :
  UnicodeString -> DecimalFormatSymbols -> PatternRules * UErrorCode.
Variable engine_parse :
  DecimalFormat PatternRules -> UnicodeString -> ParsePosition ->
  Formattable * ParsePosition.
Variable locale : DecimalFormatSymbols.
Variable scoped : JNIEnv -> jstring -> ScopedJavaUnicodeString * JNIEnv.

Ltac scoped_cases :=
  repeat match goal with
         | |- context [scoped ?e ?s] =>
             let v := fresh "src" in
             let e' := fresh "env" in
             destruct (scoped e s) as [v e']
         end.

(** *** The symbol table built by [makeDecimalFormatSymbols] *)

Lemma makeDecimalFormatSymbols_grouping (env : JNIEnv) (a : SymbolArgs) :
  grouping_symbols_agree (groupingSeparator a)
    (fst (makeDecimalFormatSymbols locale scoped env a)).
Proof.
  unfold makeDecimalFormatSymbols. scoped_cases.
  split; reflexivity.
Qed.

Lemma makeDecimalFormatSymbols_digit (env : JNIEnv) (a : SymbolArgs) (d : Z) :
  0 <= d <= 9 ->
  getSymbol (fst (makeDecimalFormatSymbols locale scoped env a)) (digitSymbol d)
  = UnicodeString_UChar32 (zeroDigit a + d).
Proof.
  intros Hd. unfold makeDecimalFormatSymbols. scoped_cases.
  assert (Hcases : d = 0 \/ d = 1 \/ d = 2 \/ d = 3 \/ d = 4 \/ d = 5 \/
                   d = 6 \/ d = 7 \/ d = 8 \/ d = 9) by lia.
  repeat (destruct Hcases as [-> | Hcases]); try subst d; reflexivity.
Qed.

Lemma makeDecimalFormatSymbols_digits (env : JNIEnv) (a : SymbolArgs) :
  jchar_range (zeroDigit a) ->
  digit_glyphs_from (zeroDigit a)
    (fst (makeDecimalFormatSymbols locale scoped env a)).
Proof.
  intros Hz d Hd. rewrite makeDecimalFormatSymbols_digit by exact Hd.
  split; [reflexivity |].
  apply codePoints_UnicodeString_UChar32. unfold jchar_range in Hz. lia.
Qed.

(** What [setDecimalFormatSymbols] installs is what
    [makeDecimalFormatSymbols] built. *)
Lemma setDecimalFormatSymbols_installs (env : JNIEnv)
    (fmt : DecimalFormat PatternRules) (a : SymbolArgs) :
  fSymbols (fst (NativeDecimalFormat_setDecimalFormatSymbols locale scoped env fmt a))
  = fst (makeDecimalFormatSymbols locale scoped env a).
Proof.
  unfold NativeDecimalFormat_setDecimalFormatSymbols.
  destruct (makeDecimalFormatSymbols locale scoped env a) as [symbols env'].
  reflexivity.
Qed.

(** An instance returned by [open] holds the symbols that
    [makeDecimalFormatSymbols] built after the pattern was unwrapped. *)
Lemma open_installs (new_succeeds : bool) (env : JNIEnv) (pattern0 : jstring)
    (a : SymbolArgs) (fmt : DecimalFormat PatternRules) (env' : JNIEnv) :
  NativeDecimalFormat_open compile locale scoped new_succeeds env pattern0 a
    = (Some fmt, env') ->
  fSymbols fmt
  = fst (makeDecimalFormatSymbols locale scoped (snd (scoped env pattern0)) a).
Proof.
  unfold NativeDecimalFormat_open, DecimalFormat_ctor.
  destruct (scoped env pattern0) as [pattern env1]. cbn [snd].
  destruct (valid pattern); cbn [negb]; [| discriminate].
  destruct (makeDecimalFormatSymbols locale scoped env1 a) as [symbols env2].
  destruct new_succeeds.
  - destruct (compile (unicodeString pattern) symbols) as [rules status].
    destruct (maybeThrowIcuException env2 _ status) as [thrown env3].
    intros H. injection H as <- _. reflexivity.
  - destruct (maybeThrowIcuException env2 _ U_ZERO_ERROR) as [thrown env3].
    discriminate.
Qed.

End BridgeFacts.

(** ** The symbol table of an instance *)

Section SymbolClaims.

Context {PatternRules : Type}.
Variable compile :
  UnicodeString -> DecimalFormatSymbols -> PatternRules * UErrorCode.
Variable locale : DecimalFormatSymbols.
Variable scoped : JNIEnv -> jstring -> ScopedJavaUnicodeString * JNIEnv.

(** C8.  For every symbol set installed through [open] or
    [setDecimalFormatSymbols] with zero digit [z] (a [jchar]), the glyph of
    each decimal digit [d] is [UnicodeString(z + d)], whose only code point
    is [z + d]: the ten glyphs are the contiguous code points z .. z+9.
    The same holds of the table [makeDecimalFormatSymbols] returns. *)
Theorem digit_glyphs_contiguous (env : JNIEnv) (a : SymbolArgs) :
  jchar_range (zeroDigit a) ->
  digit_glyphs_from (zeroDigit a)
    (fst (makeDecimalFormatSymbols locale scoped env a))
  /\ (forall fmt : DecimalFormat PatternRules,
        digit_glyphs_from (zeroDigit a)
          (fSymbols (fst (NativeDecimalFormat_setDecimalFormatSymbols
                            locale scoped env fmt a))))
  /\ (forall new_succeeds pattern0 fmt env',
        NativeDecimalFormat_open compile locale scoped new_succeeds env pattern0 a
          = (Some fmt, env') ->
        digit_glyphs_from (zeroDigit a) (fSymbols fmt)).
Proof.
  intros Hz. split; [| split].
  - apply makeDecimalFormatSymbols_digits. exact Hz.
  - intros fmt. rewrite setDecimalFormatSymbols_installs.
    apply makeDecimalFormatSymbols_digits. exact Hz.
  - intros new_succeeds pattern0 fmt env' Hopen.
    rewrite (open_installs _ _ _ _ _ _ _ _ _ Hopen).
    apply makeDecimalFormatSymbols_digits. exact Hz.
Qed.

(** C10.  Every symbol set built by [open] or [setDecimalFormatSymbols]
    has its monetary grouping separator equal to its grouping separator:
    both are the one-unit string of the single [groupingSeparator]
    argument, whatever the arguments are. *)
Theorem monetary_grouping_is_grouping (env : JNIEnv) (a : SymbolArgs) :
  grouping_symbols_agree (groupingSeparator a)
    (fst (makeDecimalFormatSymbols locale scoped env a))
  /\ (forall fmt : DecimalFormat PatternRules,
        grouping_symbols_agree (groupingSeparator a)
          (fSymbols (fst (NativeDecimalFormat_setDecimalFormatSymbols
                            locale scoped env fmt a))))
  /\ (forall new_succeeds pattern0 fmt env',
        NativeDecimalFormat_open compile locale scoped new_succeeds env pattern0 a
          = (Some fmt, env') ->
        grouping_symbols_agree (groupingSeparator a) (fSymbols fmt)).
Proof.
  split; [| split].
  - apply makeDecimalFormatSymbols_grouping.
  - intros fmt. rewrite setDecimalFormatSymbols_installs.
    apply makeDecimalFormatSymbols_grouping.
  - intros new_succeeds pattern0 fmt env' Hopen.
    rewrite (open_installs _ _ _ _ _ _ _ _ _ Hopen).
    apply makeDecimalFormatSymbols_grouping.
Qed.

End SymbolClaims.

(** ** open *)

Section OpenClaims.

Context {PatternRules : Type}.
Variable compile :
  UnicodeString -> DecimalFormatSymbols -> PatternRules * UErrorCode.
Variable locale : DecimalFormatSymbols.
Variable scoped : JNIEnv -> jstring -> ScopedJavaUnicodeString * JNIEnv.

Lemma U_FAILURE_not_SUCCESS (status : UErrorCode) :
  U_FAILURE status = negb (U_SUCCESS status).
Proof.
  unfold U_FAILURE, U_SUCCESS.
  destruct (Z.ltb_spec U_ZERO_ERROR status), (Z.leb_spec status U_ZERO_ERROR);
    (reflexivity || lia).
Qed.

Lemma maybeThrowIcuException_failure (env : JNIEnv) (function : string)
    (status : UErrorCode) :
  U_FAILURE status = true ->
  maybeThrowIcuException env function status
  = (true, Throw env (IcuException function status)).
Proof.
  rewrite U_FAILURE_not_SUCCESS. unfold maybeThrowIcuException.
  destruct (U_SUCCESS status); [discriminate | reflexivity].
Qed.

Lemma maybeThrowIcuException_success (env : JNIEnv) (function : string)
    (status : UErrorCode) :
  U_SUCCESS status = true ->
  maybeThrowIcuException env function status = (false, env).
Proof. unfold maybeThrowIcuException. now intros ->. Qed.

(** C6.  Opening an instance with a pattern the ICU constructor rejects
    (a failing status) fails: the Java caller receives the exception that
    carries that status, and no handle.  In general the caller receives
    either an exception, or the null handle, or the handle of an instance
    whose constructor ran on the unwrapped pattern and the built symbols
    and reported success; a rejected pattern never yields a handle. *)
Theorem open_valid_handle_or_failure (new_succeeds : bool) (env : JNIEnv)
    (pattern0 : jstring) (a : SymbolArgs) :
  let out := NativeDecimalFormat_open compile locale scoped
               new_succeeds env pattern0 a in
  let seen := jni_return (snd out) (fst out) in
  let pattern := fst (scoped env pattern0) in
  let symbols :=
    fst (makeDecimalFormatSymbols locale scoped (snd (scoped env pattern0)) a) in
  let status := open_status compile locale scoped env pattern0 a in
  (valid pattern = true -> new_succeeds = true -> U_FAILURE status = true ->
     seen = Throws (IcuException "DecimalFormat::DecimalFormat" status))
  /\ (open_failed seen
      \/ exists fmt,
           seen = Returns (Some fmt)
           /\ U_SUCCESS status = true
           /\ DecimalFormat_ctor compile (unicodeString pattern) symbols
              = (fmt, status)).
Proof.
  unfold NativeDecimalFormat_open, open_status.
  destruct (scoped env pattern0) as [pattern env1]. cbn [fst snd].
  destruct (makeDecimalFormatSymbols locale scoped env1 a) as [symbols env2]
    eqn:Hmake.
  cbn [fst snd].
  destruct (DecimalFormat_ctor compile (unicodeString pattern) symbols)
    as [obj status] eqn:Hctor.
  cbn [snd]. split.
  - intros -> -> Hfail. cbn [negb].
    rewrite maybeThrowIcuException_failure by exact Hfail. reflexivity.
  - destruct (valid pattern); cbn [negb].
    2:{ left. cbn [fst snd]. unfold jni_return.
        destruct (pending env1); exact I. }
    destruct new_succeeds.
    + destruct (U_SUCCESS status) eqn:Hok.
      * rewrite maybeThrowIcuException_success by exact Hok. cbn [fst snd].
        unfold jni_return. destruct (pending env2).
        -- left. exact I.
        -- right. exists obj. repeat split; reflexivity.
      * left. unfold maybeThrowIcuException. rewrite Hok. reflexivity.
    + left. rewrite maybeThrowIcuException_success by reflexivity.
      cbn [fst snd]. unfold jni_return. destruct (pending env2); exact I.
Qed.

End OpenClaims.

(** ** parse *)

Lemma parse_box_boxable (res : Formattable) (parseBigDecimal : bool) :
  boxable res parseBigDecimal = true <->
  exists v, parse_box res parseBigDecimal = Some v.
Proof.
  unfold boxable, parse_box. destruct parseBigDecimal.
  - destruct (getDecimalNumber res) as [str status]. cbn [snd].
    destruct (U_SUCCESS status).
    + split; [intros _ | reflexivity].
      destruct (_ || _ || _); eexists; reflexivity.
    + split; [discriminate | intros [v Hv]; discriminate].
  - destruct (getType res);
      (split; [try discriminate; intros _; eexists; reflexivity
              | try reflexivity; intros [v Hv]; discriminate]).
Qed.

(** The three [strncmp] tests of the source are the prefix tests of
    [special_text]. *)
Lemma strncmp_tests_special_text (data : string) :
  (strncmp data "NaN" 3 =? 0) || (strncmp data "Inf" 3 =? 0)
    || (strncmp data "-Inf" 4 =? 0)
  = special_text data.
Proof.
  unfold special_text.
  rewrite <- (strncmp_literal "NaN"), <- (strncmp_literal "Inf"),
    <- (strncmp_literal "-Inf");
    [reflexivity | | |]; cbn; unfold byte_of; cbn; repeat split; lia.
Qed.

Lemma parse_box_exact (res : Formattable) (str : string) (status : UErrorCode) :
  getDecimalNumber res = (str, status) ->
  U_SUCCESS status = true ->
  parse_box res true
  = Some (if special_text str
          then Double (getDouble_status res)
          else BigDecimal str).
Proof.
  intros Hdec Hok. unfold parse_box. rewrite Hdec, Hok.
  rewrite strncmp_tests_special_text.
  unfold newBigDecimal, doubleValueOf. rewrite substring_whole.
  destruct (special_text str); reflexivity.
Qed.

Section ParseClaims.

Context {PatternRules : Type}.
Variable engine_parse :
  DecimalFormat PatternRules -> UnicodeString -> ParsePosition ->
  Formattable * ParsePosition.
Variable scoped : JNIEnv -> jstring -> ScopedJavaUnicodeString * JNIEnv.

Lemma start_guard_passes (parsePos : jint) (text : jstring) :
  0 <= parsePos <= GetStringLength text ->
  (parsePos <? 0) || (parsePos >? GetStringLength text) = false.
Proof.
  intros H. apply orb_false_iff. split; [apply Z.ltb_ge | rewrite Z.gtb_ltb; apply Z.ltb_ge]; lia.
Qed.

Lemma start_guard_rejects (parsePos : jint) (text : jstring) :
  parsePos < 0 \/ parsePos > GetStringLength text ->
  (parsePos <? 0) || (parsePos >? GetStringLength text) = true.
Proof.
  intros H. apply orb_true_iff. rewrite Z.gtb_ltb, !Z.ltb_lt. lia.
Qed.

(** The outcome of a call that passes both guards, in one equation. *)
Lemma parse_in_range (env : JNIEnv) (fmt : DecimalFormat PatternRules)
    (text : jstring) (position : JParsePosition) (parseBigDecimal : bool) :
  let src := fst (scoped env text) in
  let icu := engine_parse fmt (unicodeString src)
               (ParsePosition_ctor (index position)) in
  valid src = true ->
  0 <= index position <= GetStringLength text ->
  NativeDecimalFormat_parse engine_parse scoped env fmt text position
    parseBigDecimal
  = if getErrorIndex (snd icu) =? -1
    then {| result := parse_box (fst icu) parseBigDecimal;
            positionAfter := gPP_setIndex position (getIndex (snd icu));
            envAfter := snd (scoped env text) |}
    else {| result := None;
            positionAfter := gPP_setErrorIndex position (getErrorIndex (snd icu));
            envAfter := snd (scoped env text) |}.
Proof.
  unfold NativeDecimalFormat_parse, gPP_getIndex.
  destruct (scoped env text) as [src env1]. cbn [fst snd].
  intros Hvalid Hstart. rewrite Hvalid. cbn [negb].
  rewrite start_guard_passes by exact Hstart.
  destruct (engine_parse fmt (unicodeString src)
              (ParsePosition_ctor (index position))) as [res pp].
  reflexivity.
Qed.

(** C9.  A parse call whose start offset is negative or greater than the
    length of the text returns no value at once: the engine's answer plays
    no part in the outcome, and the position object is left as it was,
    index and error index alike. *)
Theorem parse_start_out_of_range (env : JNIEnv)
    (fmt : DecimalFormat PatternRules) (text : jstring)
    (position : JParsePosition) (parseBigDecimal : bool) :
  index position < 0 \/ index position > GetStringLength text ->
  NativeDecimalFormat_parse engine_parse scoped env fmt text position
    parseBigDecimal
  = {| result := None;
       positionAfter := position;
       envAfter := snd (scoped env text) |}.
Proof.
  intros Hstart. unfold NativeDecimalFormat_parse, gPP_getIndex.
  destruct (scoped env text) as [src env1]. cbn [snd].
  destruct (valid src); cbn [negb]; [| reflexivity].
  rewrite start_guard_rejects by exact Hstart. reflexivity.
Qed.

(** C2, as amended.  For a parse call on a text the string helper accepts
    and a start offset within 0 .. length: the call raises nothing of its
    own; when the engine reports no error, the end offset is written into
    the index and the value boxed from the engine's result is returned,
    which is a value whenever that result is boxable (success shape);
    when the engine reports an error offset, that offset is written into
    the error index and no value is returned (failure shape); and the two
    shapes never hold together. *)
Theorem parse_in_range_shapes (env : JNIEnv)
    (fmt : DecimalFormat PatternRules) (text : jstring)
    (position : JParsePosition) (parseBigDecimal : bool) :
  let src := fst (scoped env text) in
  let icu := engine_parse fmt (unicodeString src)
               (ParsePosition_ctor (index position)) in
  let o := NativeDecimalFormat_parse engine_parse scoped env fmt text position
             parseBigDecimal in
  valid src = true ->
  0 <= index position <= GetStringLength text ->
  envAfter o = snd (scoped env text)
  /\ (getErrorIndex (snd icu) = -1 ->
        result o = parse_box (fst icu) parseBigDecimal
        /\ positionAfter o = gPP_setIndex position (getIndex (snd icu)))
  /\ (getErrorIndex (snd icu) = -1 ->
        boxable (fst icu) parseBigDecimal = true ->
        success_shape position o)
  /\ (getErrorIndex (snd icu) <> -1 ->
        failure_shape position o
        /\ positionAfter o = gPP_setErrorIndex position (getErrorIndex (snd icu)))
  /\ ~ (success_shape position o /\ failure_shape position o).
Proof.
  intros src icu o Hvalid Hstart.
  pose proof (parse_in_range env fmt text position parseBigDecimal
                Hvalid Hstart) as Ho.
  fold src icu o in Ho. clearbody o.
  assert (Hexcl : ~ (success_shape position o /\ failure_shape position o)).
  { intros [[v [e [Hv _]]] [e' [_ [Hnone _]]]]. congruence. }
  revert Ho.
  destruct (Z.eqb_spec (getErrorIndex (snd icu)) (-1)) as [Hok | Herr];
    intros ->; cbn [result positionAfter envAfter].
  - repeat split; try (intros; contradiction); try exact Hexcl.
    intros _ Hbox. apply parse_box_boxable in Hbox as [v Hv].
    exists v, (getIndex (snd icu)). split; [exact Hv | reflexivity].
  - repeat split; try (intros; contradiction); try exact Hexcl.
    exists (getErrorIndex (snd icu)). repeat split. exact Herr.
Qed.

(** C5.  With exact decimals requested, a parse the engine completes
    without error and whose decimal text [str] is available returns that
    text as an exact decimal ([BigDecimal str]), except that a text naming
    NaN, Infinity or -Infinity (one that begins with "NaN", "Inf" or
    "-Inf") is returned as the double the engine holds. *)
Theorem parse_exact_decimal_or_double (env : JNIEnv)
    (fmt : DecimalFormat PatternRules) (text : jstring)
    (position : JParsePosition) (str : string) (status : UErrorCode) :
  let src := fst (scoped env text) in
  let icu := engine_parse fmt (unicodeString src)
               (ParsePosition_ctor (index position)) in
  valid src = true ->
  0 <= index position <= GetStringLength text ->
  getErrorIndex (snd icu) = -1 ->
  getDecimalNumber (fst icu) = (str, status) ->
  U_SUCCESS status = true ->
  result (NativeDecimalFormat_parse engine_parse scoped env fmt text position true)
  = Some (if special_text str
          then Double (getDouble_status (fst icu))
          else BigDecimal str).
Proof.
  intros src icu Hvalid Hstart Hok Hdec Hstatus.
  rewrite (parse_in_range env fmt text position true Hvalid Hstart).
  fold src icu. rewrite Hok. cbn [Z.eqb Pos.eqb result].
  apply parse_box_exact with status; assumption.
Qed.

End ParseClaims.

(** ** Patterns: the bridge forwards *)

Section PatternRelay.

Context {PatternRules : Type}.
Variable applyPattern :
  bool -> DecimalFormat PatternRules -> UnicodeString ->
  DecimalFormat PatternRules * UErrorCode.
Variable toPattern : bool -> DecimalFormat PatternRules -> UnicodeString.
Variable scoped : JNIEnv -> jstring -> ScopedJavaUnicodeString * JNIEnv.

(** The instance [applyPatternImpl] leaves behind is the one ICU's
    [applyPattern] (or [applyLocalizedPattern]) leaves on the unwrapped
    text, whatever status it reports. *)
Lemma applyPatternImpl_relays (env : JNIEnv) (fmt : DecimalFormat PatternRules)
    (localized : bool) (pattern0 : jstring) :
  valid (fst (scoped env pattern0)) = true ->
  fst (NativeDecimalFormat_applyPatternImpl applyPattern scoped env fmt
         localized pattern0)
  = fst (applyPattern localized fmt (unicodeString (fst (scoped env pattern0)))).
Proof.
  unfold NativeDecimalFormat_applyPatternImpl.
  destruct (scoped env pattern0) as [pattern env1]. cbn [fst].
  intros ->. cbn [negb].
  destruct localized;
    destruct (applyPattern _ fmt (unicodeString pattern)) as [fmt' status];
    destruct (maybeThrowIcuException env1 _ status); reflexivity.
Qed.

(** The text [toPatternImpl] returns is ICU's. *)
Lemma toPatternImpl_relays (fmt : DecimalFormat PatternRules) (localized : bool) :
  NativeDecimalFormat_toPatternImpl toPattern fmt localized
  = Some (toPattern localized fmt).
Proof. destruct localized; reflexivity. Qed.

End PatternRelay.

(** ** The bridge on concrete inputs *)

Module Runs.

Import Scripted.

(** With the Arabic-Indic zero U+0660 the digit seven is U+0667. *)
Example arabic_indic_seven :
  getSymbol
    (fst (makeDecimalFormatSymbols no_symbols scoped env0
            {| currencySymbol := None; decimalSeparator := 1643; digit := 35;
               exponentSeparator := None; groupingSeparator := 1644;
               infinity := None; internationalCurrencySymbol := None;
               minusSign := None; monetaryDecimalSeparator := 1643;
               nan := None; patternSeparator := 59; percent := None;
               perMill := 1545; zeroDigit := 1632 |}))
    kSevenDigitSymbol = [1639].
Proof. reflexivity. Qed.

(** A zero digit at the top of the [jchar] range: the digits past U+FFFF
    are stored as surrogate pairs and still decode to z + d. *)
Example digit_past_bmp :
  UnicodeString_UChar32 (65535 + 9) = [55296; 56328]
  /\ codePoints (UnicodeString_UChar32 (65535 + 9)) = [65544].
Proof. split; reflexivity. Qed.

(** The bridge relays what the engine answers: an engine that stops after
    "123" in "123abc" makes [parse] return 123 and set the index to 3;
    an engine that refuses ",123" at offset 0 makes it return nothing and
    set the error index to 0. *)
Example parse_relays_prefix :
  NativeDecimalFormat_parse (parse res123 (stopped_at 3)) scoped env0 fmt0
    (Some text_123abc) (fresh 0) false
  = {| result := Some (Long 123);
       positionAfter := {| index := 3; errorIndex := -1 |};
       envAfter := env0 |}.
Proof. reflexivity. Qed.

Example parse_relays_failure :
  NativeDecimalFormat_parse (parse res123 (failed_at 0 0)) scoped env0 fmt0
    (Some text_comma123) (fresh 0) false
  = {| result := None;
       positionAfter := {| index := 0; errorIndex := 0 |};
       envAfter := env0 |}.
Proof. reflexivity. Qed.

Example open_accepts :
  NativeDecimalFormat_open (compile U_ZERO_ERROR) no_symbols scoped true env0
    (Some pattern_grouped) english
  = (Some {| fSymbols := fst (makeDecimalFormatSymbols no_symbols scoped env0 english);
             fRules := tt |}, env0).
Proof. reflexivity. Qed.

Example open_null_pattern :
  NativeDecimalFormat_open (compile U_ZERO_ERROR) no_symbols scoped true env0
    None english
  = (None, {| pending := Some NullPointerException |}).
Proof. reflexivity. Qed.

(** *** Instances of the theorems *)

Lemma digit_glyphs_contiguous_witness :
  jchar_range (zeroDigit english)
  /\ getSymbol
       (fSymbols (fst (NativeDecimalFormat_setDecimalFormatSymbols
                         no_symbols scoped env0 fmt0 english)))
       kSevenDigitSymbol = [55]
  /\ codePoints
       (getSymbol
          (fSymbols (fst (NativeDecimalFormat_setDecimalFormatSymbols
                            no_symbols scoped env0 fmt0 english)))
          kSevenDigitSymbol) = [55].
Proof.
  assert (Hz : jchar_range (zeroDigit english))
    by (unfold jchar_range; simpl; lia).
  split; [exact Hz |].
  assert (H7 : 0 <= 7 <= 9) by lia.
  exact (proj1 (proj2 (digit_glyphs_contiguous (compile U_ZERO_ERROR)
                         no_symbols scoped env0 english Hz)) fmt0 7 H7).
Defined.

Lemma monetary_grouping_is_grouping_witness :
  grouping_symbols_agree 44
    (fSymbols {| fSymbols := fst (makeDecimalFormatSymbols no_symbols scoped env0 english);
                 fRules := tt |}).
Proof.
  exact (proj2 (proj2 (monetary_grouping_is_grouping (compile U_ZERO_ERROR)
                         no_symbols scoped env0 english))
           true (Some pattern_grouped) _ env0 eq_refl).
Defined.

Lemma open_valid_handle_or_failure_witness :
  let out := NativeDecimalFormat_open (compile pattern_error) no_symbols scoped
               true env0 (Some pattern_two_points) english in
  jni_return (snd out) (fst out)
  = Throws (IcuException "DecimalFormat::DecimalFormat" pattern_error).
Proof.
  exact (proj1 (open_valid_handle_or_failure (compile pattern_error)
                  no_symbols scoped true env0 (Some pattern_two_points) english)
           eq_refl eq_refl eq_refl).
Defined.

Lemma parse_start_out_of_range_witness :
  NativeDecimalFormat_parse (parse res123 (stopped_at 3)) scoped env0 fmt0
    (Some text_123abc) (fresh 7) false
  = {| result := None; positionAfter := fresh 7; envAfter := env0 |}.
Proof.
  assert (H : index (fresh 7) < 0
              \/ index (fresh 7) > GetStringLength (Some text_123abc))
    by (right; simpl; lia).
  exact (parse_start_out_of_range (parse res123 (stopped_at 3)) scoped env0 fmt0
           (Some text_123abc) (fresh 7) false H).
Defined.

Lemma parse_in_range_shapes_witness :
  success_shape (fresh 0)
    (NativeDecimalFormat_parse (parse res123 (stopped_at 3)) scoped env0 fmt0
       (Some text_123abc) (fresh 0) false)
  /\ failure_shape (fresh 0)
       (NativeDecimalFormat_parse (parse res123 (failed_at 0 0)) scoped env0 fmt0
          (Some text_comma123) (fresh 0) false).
Proof.
  assert (H1 : 0 <= index (fresh 0) <= GetStringLength (Some text_123abc))
    by (simpl; lia).
  assert (H2 : 0 <= index (fresh 0) <= GetStringLength (Some text_comma123))
    by (simpl; lia).
  assert (H3 : getErrorIndex (failed_at 0 0) <> -1) by (simpl; lia).
  split.
  - exact (proj1 (proj2 (proj2
             (parse_in_range_shapes (parse res123 (stopped_at 3)) scoped env0
                fmt0 (Some text_123abc) (fresh 0) false eq_refl H1)))
             eq_refl eq_refl).
  - exact (proj1 (proj1 (proj2 (proj2 (proj2
             (parse_in_range_shapes (parse res123 (failed_at 0 0)) scoped env0
                fmt0 (Some text_comma123) (fresh 0) false eq_refl H2))))
             H3)).
Defined.

Lemma parse_exact_decimal_or_double_witness :
  result (NativeDecimalFormat_parse (parse res123 (stopped_at 3)) scoped env0
            fmt0 (Some text_123abc) (fresh 0) true)
  = Some (BigDecimal "123")
  /\ result (NativeDecimalFormat_parse (parse resInf (stopped_at 1)) scoped env0
               fmt0 (Some [8734]) (fresh 0) true)
     = Some (Double (S754_infinity false)).
Proof.
  assert (H1 : 0 <= index (fresh 0) <= GetStringLength (Some text_123abc))
    by (simpl; lia).
  assert (H2 : 0 <= index (fresh 0) <= GetStringLength (Some [8734]))
    by (simpl; lia).
  split.
  - exact (parse_exact_decimal_or_double (parse res123 (stopped_at 3)) scoped
             env0 fmt0 (Some text_123abc) (fresh 0) "123" U_ZERO_ERROR
             eq_refl H1 eq_refl eq_refl eq_refl).
  - exact (parse_exact_decimal_or_double (parse resInf (stopped_at 1)) scoped
             env0 fmt0 (Some [8734]) (fresh 0) "Infinity" U_ZERO_ERROR
             eq_refl H2 eq_refl eq_refl eq_refl).
Defined.

(** *** A call that is neither shape *)

(** C2, as first stated, fails.  On the text "123abc" with a fresh
    position at -1 the start-offset guard returns at once: no value, hence
    no success shape; and the error index is still -1, hence no error
    offset and no failure shape. *)
Lemma parse_out_of_range_is_neither_shape :
  let o := NativeDecimalFormat_parse (parse res123 (stopped_at 3)) scoped env0
             fmt0 (Some text_123abc) (fresh (-1)) false in
  o = {| result := None; positionAfter := fresh (-1); envAfter := env0 |}
  /\ ~ (success_shape (fresh (-1)) o \/ failure_shape (fresh (-1)) o).
Proof.
  split; [reflexivity |].
  intros [[v [e [Hv _]]] | [e [Hne [_ Hpos]]]].
  - discriminate Hv.
  - cbn in Hpos. injection Hpos as He. apply Hne. symmetry. exact He.
Qed.

End Runs.


(** ** More on the symbol table *)

Section SymbolTableMore.

Variable locale : DecimalFormatSymbols.
Variable scoped : JNIEnv -> jstring -> ScopedJavaUnicodeString * JNIEnv.

Ltac scoped_views :=
  repeat match goal with
         | |- context [scoped ?e ?s] =>
             let v := fresh "view" in
             let e' := fresh "env" in
             destruct (scoped e s) as [v e']
         end.

(** X1.  [makeDecimalFormatSymbols] never sets the plus sign, the pad
    escape or the significant-digit symbol: in its result these three hold
    what the default-constructed table held, and every other symbol holds
    a value that does not depend on that table. *)
Theorem makeDecimalFormatSymbols_leaves_three (other : DecimalFormatSymbols)
    (env : JNIEnv) (a : SymbolArgs) (symbol : ENumberFormatSymbol) :
  let built := fst (makeDecimalFormatSymbols locale scoped env a) in
  (symbol = kPlusSignSymbol \/ symbol = kPadEscapeSymbol
   \/ symbol = kSignificantDigitSymbol ->
   getSymbol built symbol = getSymbol locale symbol)
  /\ (symbol <> kPlusSignSymbol -> symbol <> kPadEscapeSymbol ->
      symbol <> kSignificantDigitSymbol ->
      getSymbol built symbol
      = getSymbol (fst (makeDecimalFormatSymbols other scoped env a)) symbol).
Proof.
  unfold makeDecimalFormatSymbols. scoped_views. cbn [fst]. split.
  - intros [-> | [-> | ->]]; reflexivity.
  - intros Hplus Hpad Hsig.
    destruct symbol; try contradiction;
      unfold getSymbol, setSymbol, insert, fn_insert; simpl; reflexivity.
Qed.

(** X2.  Each of the five single-character arguments other than the
    grouping separator ends up in its own symbol as a one-unit string: the
    decimal separator, the monetary decimal separator, the pattern
    separator, the per-mille sign and the digit placeholder do not
    overwrite one another. *)
Theorem makeDecimalFormatSymbols_separators (env : JNIEnv) (a : SymbolArgs) :
  let built := fst (makeDecimalFormatSymbols locale scoped env a) in
  getSymbol built kDecimalSeparatorSymbol = [decimalSeparator a]
  /\ getSymbol built kMonetarySeparatorSymbol = [monetaryDecimalSeparator a]
  /\ getSymbol built kPatternSeparatorSymbol = [patternSeparator a]
  /\ getSymbol built kPerMillSymbol = [perMill a]
  /\ getSymbol built kDigitSymbol = [digit a].
Proof.
  unfold makeDecimalFormatSymbols. scoped_views. cbn [fst].
  repeat split; reflexivity.
Qed.

(** X3.  For a zero digit in the [jchar] range the ten digit glyphs are
    pairwise different: two different digits never share a glyph. *)
Theorem digit_glyphs_distinct (env : JNIEnv) (a : SymbolArgs) (d d' : Z) :
  let built := fst (makeDecimalFormatSymbols locale scoped env a) in
  jchar_range (zeroDigit a) ->
  0 <= d <= 9 -> 0 <= d' <= 9 ->
  d <> d' ->
  getSymbol built (digitSymbol d) <> getSymbol built (digitSymbol d').
Proof.
  intros built Hz Hd Hd' Hne Heq.
  destruct (makeDecimalFormatSymbols_digits locale scoped env a Hz d Hd)
    as [_ Hcp].
  destruct (makeDecimalFormatSymbols_digits locale scoped env a Hz d' Hd')
    as [_ Hcp'].
  fold built in Hcp, Hcp'. rewrite Heq in Hcp. rewrite Hcp in Hcp'.
  injection Hcp' as Hsum. lia.
Qed.

Lemma UnicodeString_UChar32_length (c : Z) :
  0 <= c <= 1114111 ->
  length (UnicodeString_UChar32 c) = if c <=? 65535 then 1%nat else 2%nat.
Proof.
  intros Hc. unfold UnicodeString_UChar32, U16_APPEND.
  replace (0 <=? c) with true by (symmetry; apply Z.leb_le; lia).
  cbn [andb]. destruct (c <=? 65535); [reflexivity |].
  replace (c <=? 1114111) with true by (symmetry; apply Z.leb_le; lia).
  reflexivity.
Qed.

(** X4.  The digit glyphs are computed in [int], not in [jchar]: the
    glyph of digit [d] is the one unit [zeroDigit + d] while that sum is at
    most U+FFFF, and a two-unit surrogate pair beyond it; it never wraps
    around to the start of the 16-bit range. *)
Theorem digit_glyph_units (env : JNIEnv) (a : SymbolArgs) (d : Z) :
  let glyph :=
    getSymbol (fst (makeDecimalFormatSymbols locale scoped env a))
      (digitSymbol d) in
  jchar_range (zeroDigit a) ->
  0 <= d <= 9 ->
  length glyph = (if zeroDigit a + d <=? 65535 then 1%nat else 2%nat)
  /\ (zeroDigit a + d <= 65535 -> glyph = [zeroDigit a + d])
  /\ (65535 < zeroDigit a + d -> glyph <> [(zeroDigit a + d) mod 65536]).
Proof.
  intros glyph Hz Hd. unfold jchar_range in Hz.
  assert (Hglyph : glyph = UnicodeString_UChar32 (zeroDigit a + d))
    by (apply makeDecimalFormatSymbols_digit; exact Hd).
  rewrite Hglyph. split; [| split].
  - apply UnicodeString_UChar32_length. lia.
  - intros Hle. unfold UnicodeString_UChar32, U16_APPEND.
    replace (0 <=? zeroDigit a + d) with true by (symmetry; apply Z.leb_le; lia).
    replace (zeroDigit a + d <=? 65535) with true
      by (symmetry; apply Z.leb_le; lia).
    reflexivity.
  - intros Hgt Heq. apply (f_equal (@length Z)) in Heq.
    rewrite UnicodeString_UChar32_length in Heq by lia.
    destruct (Z.leb_spec (zeroDigit a + d) 65535); [lia | discriminate].
Qed.

End SymbolTableMore.

(** ** More on parse *)

Lemma parse_box_kind (res : Formattable) (parseBigDecimal : bool) (v : Number) :
  parse_box res parseBigDecimal = Some v ->
  if parseBigDecimal
  then v = Double (getDouble_status res)
       \/ (exists text, v = BigDecimal text /\ special_text text = false)
  else v = Double (getDouble res) \/ exists n, v = Long n.
Proof.
  unfold parse_box. destruct parseBigDecimal.
  - destruct (getDecimalNumber res) as [str status].
    destruct (U_SUCCESS status); [| discriminate].
    rewrite strncmp_tests_special_text.
    destruct (special_text str) eqn:Hspecial; intros H; injection H as <-.
    + left. reflexivity.
    + right. exists str. unfold newBigDecimal. rewrite substring_whole.
      split; [reflexivity | exact Hspecial].
  - destruct (getType res); try discriminate; intros H; injection H as <-.
    + left. reflexivity.
    + right. eexists. reflexivity.
    + right. eexists. reflexivity.
Qed.

Section ParseMore.

Context {PatternRules : Type}.
Variable engine_parse :
  DecimalFormat PatternRules -> UnicodeString -> ParsePosition ->
  Formattable * ParsePosition.
Variable scoped : JNIEnv -> jstring -> ScopedJavaUnicodeString * JNIEnv.

(** Every call ends in one of three ways. *)
Lemma parse_cases (env : JNIEnv) (fmt : DecimalFormat PatternRules)
    (text : jstring) (position : JParsePosition) (parseBigDecimal : bool) :
  let o := NativeDecimalFormat_parse engine_parse scoped env fmt text position
             parseBigDecimal in
  let icu := engine_parse fmt (unicodeString (fst (scoped env text)))
               (ParsePosition_ctor (index position)) in
  envAfter o = snd (scoped env text)
  /\ ((result o = None /\ positionAfter o = position)
      \/ (getErrorIndex (snd icu) = -1
          /\ result o = parse_box (fst icu) parseBigDecimal
          /\ positionAfter o = gPP_setIndex position (getIndex (snd icu)))
      \/ (getErrorIndex (snd icu) <> -1
          /\ result o = None
          /\ positionAfter o
             = gPP_setErrorIndex position (getErrorIndex (snd icu)))).
Proof.
  unfold NativeDecimalFormat_parse, gPP_getIndex.
  destruct (scoped env text) as [src env1]. cbn [fst snd].
  destruct (valid src); cbn [negb]; [| split; [reflexivity | left; split; reflexivity]].
  destruct ((index position <? 0) || (index position >? GetStringLength text));
    [split; [reflexivity | left; split; reflexivity] |].
  destruct (engine_parse fmt (unicodeString src)
              (ParsePosition_ctor (index position))) as [res pp].
  cbn [fst snd].
  destruct (Z.eqb_spec (getErrorIndex pp) (-1)) as [Hok | Herr];
    (split; [reflexivity | right]).
  - left. repeat split. exact Hok.
  - right. repeat split. exact Herr.
Qed.

(** X5.  Whatever the inputs (null text and out-of-range start
    included), one call of [parse] writes at most one of the two offsets
    and raises nothing of its own: a returned value always comes with the
    index written and the error index untouched, and a changed error index
    always comes with no value and the index untouched. *)
Theorem parse_writes_at_most_one_offset (env : JNIEnv)
    (fmt : DecimalFormat PatternRules) (text : jstring)
    (position : JParsePosition) (parseBigDecimal : bool) :
  let o := NativeDecimalFormat_parse engine_parse scoped env fmt text position
             parseBigDecimal in
  envAfter o = snd (scoped env text)
  /\ (forall v, result o = Some v ->
        exists e, positionAfter o = gPP_setIndex position e)
  /\ (errorIndex (positionAfter o) <> errorIndex position ->
        result o = None /\ index (positionAfter o) = index position).
Proof.
  intros o.
  destruct (parse_cases env fmt text position parseBigDecimal)
    as [Henv [[Hnone Hpos] | [[_ [_ Hpos]] | [_ [Hnone Hpos]]]]];
    fold o in Henv, Hpos; try fold o in Hnone;
    (split; [exact Henv | split]).
  - intros v Hv. congruence.
  - intros Hchanged. rewrite Hpos in Hchanged. contradiction.
  - intros v _. eexists. exact Hpos.
  - intros Hchanged. rewrite Hpos in Hchanged. cbn in Hchanged. contradiction.
  - intros v Hv. congruence.
  - intros _. rewrite Hpos. split; [exact Hnone | reflexivity].
Qed.

(** X6.  When the engine completes without error but its result cannot
    be boxed (neither double, long nor int64; or, with exact decimals
    requested, no decimal text), [parse] returns no value although it has
    already moved the index to the engine's end offset, and it records no
    error offset. *)
Theorem parse_unboxable_advances (env : JNIEnv)
    (fmt : DecimalFormat PatternRules) (text : jstring)
    (position : JParsePosition) (parseBigDecimal : bool) :
  let src := fst (scoped env text) in
  let icu := engine_parse fmt (unicodeString src)
               (ParsePosition_ctor (index position)) in
  valid src = true ->
  0 <= index position <= GetStringLength text ->
  getErrorIndex (snd icu) = -1 ->
  boxable (fst icu) parseBigDecimal = false ->
  NativeDecimalFormat_parse engine_parse scoped env fmt text position
    parseBigDecimal
  = {| result := None;
       positionAfter := {| index := getIndex (snd icu);
                           errorIndex := errorIndex position |};
       envAfter := snd (scoped env text) |}.
Proof.
  intros src icu Hvalid Hstart Hok Hbox.
  rewrite (parse_in_range engine_parse scoped env fmt text position
             parseBigDecimal Hvalid Hstart).
  fold src icu. rewrite Hok. cbn [Z.eqb Pos.eqb].
  destruct (parse_box (fst icu) parseBigDecimal) as [v |] eqn:Hv;
    [| reflexivity].
  assert (Hyes : boxable (fst icu) parseBigDecimal = true)
    by (apply parse_box_boxable; exists v; exact Hv).
  congruence.
Qed.

(** X7.  The kind of the returned object follows the flag.  With exact
    decimals requested a returned value is a BigDecimal whose text does
    not begin with "NaN", "Inf" or "-Inf", or else a double; it is never a
    long.  Without, it is a long or a double, never a BigDecimal. *)
Theorem parse_result_kind (env : JNIEnv)
    (fmt : DecimalFormat PatternRules) (text : jstring)
    (position : JParsePosition) (parseBigDecimal : bool) (v : Number) :
  result (NativeDecimalFormat_parse engine_parse scoped env fmt text position
            parseBigDecimal) = Some v ->
  if parseBigDecimal
  then (exists d, v = Double d)
       \/ (exists t, v = BigDecimal t /\ special_text t = false)
  else (exists d, v = Double d) \/ (exists n, v = Long n).
Proof.
  intros Hv.
  destruct (parse_cases env fmt text position parseBigDecimal)
    as [_ [[Hnone _] | [[_ [Hres _]] | [_ [Hnone _]]]]]; try congruence.
  rewrite Hres in Hv. apply parse_box_kind in Hv.
  destruct parseBigDecimal; destruct Hv as [-> | Hv]; eauto.
Qed.

End ParseMore.

Section ParseEngines.

Context {PatternRules : Type}.
Variable scoped : JNIEnv -> jstring -> ScopedJavaUnicodeString * JNIEnv.

(** X8.  [parse] consults the engine at most once, on the unwrapped text
    and a fresh ICU position that holds the start offset and no error:
    two engines that agree on that one call give the same outcome. *)
Theorem parse_consults_engine_once
    (engine1 engine2 :
       DecimalFormat PatternRules -> UnicodeString -> ParsePosition ->
       Formattable * ParsePosition)
    (env : JNIEnv) (fmt : DecimalFormat PatternRules) (text : jstring)
    (position : JParsePosition) (parseBigDecimal : bool) :
  engine1 fmt (unicodeString (fst (scoped env text)))
    {| getIndex := index position; getErrorIndex := -1 |}
  = engine2 fmt (unicodeString (fst (scoped env text)))
      {| getIndex := index position; getErrorIndex := -1 |} ->
  NativeDecimalFormat_parse engine1 scoped env fmt text position parseBigDecimal
  = NativeDecimalFormat_parse engine2 scoped env fmt text position
      parseBigDecimal.
Proof.
  unfold NativeDecimalFormat_parse, gPP_getIndex, ParsePosition_ctor.
  destruct (scoped env text) as [src env1]. cbn [fst].
  intros ->. reflexivity.
Qed.

End ParseEngines.

(** ** More on open *)

Section OpenMore.

Context {PatternRules : Type}.
Variable compile :
  UnicodeString -> DecimalFormatSymbols -> PatternRules * UErrorCode.
Variable locale : DecimalFormatSymbols.
Variable scoped : JNIEnv -> jstring -> ScopedJavaUnicodeString * JNIEnv.

(** X9.  The address [open] returns is null exactly when the pattern
    reference is not valid or [new] obtained no memory.  In particular a
    pattern that ICU rejects still yields a non-null address (next to the
    pending exception): the instance is neither freed nor replaced by
    null. *)
Theorem open_null_handle_iff (new_succeeds : bool) (env : JNIEnv)
    (pattern0 : jstring) (a : SymbolArgs) :
  fst (NativeDecimalFormat_open compile locale scoped new_succeeds env
         pattern0 a) = None
  <-> valid (fst (scoped env pattern0)) = false \/ new_succeeds = false.
Proof.
  unfold NativeDecimalFormat_open.
  destruct (scoped env pattern0) as [pattern env1]. cbn [fst].
  destruct (valid pattern); cbn [negb].
  2:{ cbn [fst]. split; [left; reflexivity | reflexivity]. }
  destruct (makeDecimalFormatSymbols locale scoped env1 a) as [symbols env2].
  destruct new_succeeds.
  - destruct (DecimalFormat_ctor compile (unicodeString pattern) symbols)
      as [obj status].
    destruct (maybeThrowIcuException env2 _ status) as [thrown env3].
    cbn [fst]. split; [discriminate | intros [H | H]; discriminate].
  - destruct (maybeThrowIcuException env2 _ U_ZERO_ERROR) as [thrown env3].
    cbn [fst]. split; [right; reflexivity | reflexivity].
Qed.

(** X10.  [open] raises an exception of its own only when ICU's
    constructor ran and reported a failure.  With a reference that is not
    valid nothing more happens after the string helper; and when [new]
    obtained no memory, or the constructor reported success, the
    environment is the one the symbol table construction left. *)
Theorem open_raises_only_on_icu_failure (new_succeeds : bool) (env : JNIEnv)
    (pattern0 : jstring) (a : SymbolArgs) :
  let out := NativeDecimalFormat_open compile locale scoped new_succeeds env
               pattern0 a in
  let env1 := snd (scoped env pattern0) in
  (valid (fst (scoped env pattern0)) = false -> out = (None, env1))
  /\ (valid (fst (scoped env pattern0)) = true ->
      new_succeeds = false
      \/ U_SUCCESS (open_status compile locale scoped env pattern0 a) = true ->
      snd out = snd (makeDecimalFormatSymbols locale scoped env1 a)).
Proof.
  unfold NativeDecimalFormat_open, open_status.
  destruct (scoped env pattern0) as [pattern env1]. cbn [fst snd]. split.
  - intros ->. reflexivity.
  - intros -> Hcase. cbn [negb].
    destruct (makeDecimalFormatSymbols locale scoped env1 a) as [symbols env2].
    cbn [snd].
    destruct (DecimalFormat_ctor compile (unicodeString pattern) symbols)
      as [obj status].
    cbn [snd] in Hcase.
    destruct new_succeeds.
    + destruct Hcase as [Hno | Hok]; [discriminate |].
      rewrite maybeThrowIcuException_success by exact Hok. reflexivity.
    + rewrite maybeThrowIcuException_success by reflexivity. reflexivity.
Qed.

End OpenMore.

(** ** Formatting *)

Section CollectFacts.

Lemma collect_triples (positions : list FieldPosition) (data : list Z) :
  collect positions data = data ++ triples positions.
Proof.
  revert data. induction positions as [| fp rest IH]; intros data; cbn.
  - now rewrite app_nil_r.
  - rewrite IH. now rewrite <- !app_assoc.
Qed.

Lemma triples_length (positions : list FieldPosition) :
  length (triples positions) = (3 * length positions)%nat.
Proof.
  induction positions as [| fp rest IH]; cbn [triples flat_map length app];
    [reflexivity |].
  fold (triples rest). rewrite IH. lia.
Qed.

Lemma triples_nth (positions : list FieldPosition) (k : nat)
    (fp : FieldPosition) :
  nth_error positions k = Some fp ->
  nth_error (triples positions) (3 * k) = Some (getField fp)
  /\ nth_error (triples positions) (3 * k + 1) = Some (getBeginIndex fp)
  /\ nth_error (triples positions) (3 * k + 2) = Some (getEndIndex fp).
Proof.
  revert k. induction positions as [| p rest IH]; intros k Hk.
  - destruct k; discriminate.
  - destruct k as [| k].
    + injection Hk as ->. repeat split; reflexivity.
    + cbn [nth_error] in Hk. specialize (IH k Hk).
      replace (3 * S k)%nat with (S (S (S (3 * k)))) by lia.
      exact IH.
Qed.

Lemma triples_nil_iff (positions : list FieldPosition) :
  triples positions = [] <-> positions = [].
Proof.
  split; [| intros ->; reflexivity].
  destruct positions; [reflexivity | discriminate].
Qed.

End CollectFacts.

Section FormattingFacts.

Variable NewIntArray : JNIEnv -> Z -> bool * JNIEnv.
Variable ScopedIntArrayRW_get : JNIEnv -> bool * JNIEnv.
Variable NewCharArray : JNIEnv -> Z -> bool * JNIEnv.

Lemma formatResult_cases (env : JNIEnv) (s : UnicodeString)
    (fpi : option (list FieldPosition))
    (javaFieldPositionIterator : option JFieldPositionIterator) :
  let o := formatResult NewIntArray ScopedIntArrayRW_get NewCharArray env s
             fpi javaFieldPositionIterator in
  (chars o = None /\ iteratorAfter o = javaFieldPositionIterator)
  \/ ((chars o = None \/ chars o = Some s)
      /\ iteratorAfter o = iterator_done fpi javaFieldPositionIterator).
Proof.
  unfold formatResult, copyChars, iterator_done.
  destruct fpi as [positions |].
  - rewrite collect_triples. cbn [app].
    destruct positions as [| fp rest].
    + cbn [triples flat_map javaData_of].
      destruct (NewCharArray env _) as [[|] env1]; right; cbn; auto.
    + cbn [javaData_of].
      destruct (triples (fp :: rest)) as [| x data] eqn:Hdata;
        [discriminate |].
      destruct (NewIntArray env _) as [[|] env1]; cbn [negb];
        [| left; split; reflexivity].
      destruct (ScopedIntArrayRW_get env1) as [[|] env2]; cbn [negb];
        [| left; split; reflexivity].
      destruct (NewCharArray env2 _) as [[|] env3]; right; cbn; auto.
  - destruct (NewCharArray env _) as [[|] env1]; right; cbn; auto.
Qed.

Lemma formatResult_allocated (env : JNIEnv) (s : UnicodeString)
    (fpi : option (list FieldPosition))
    (javaFieldPositionIterator : option JFieldPositionIterator) :
  (forall e n, fst (NewIntArray e n) = true) ->
  (forall e, fst (ScopedIntArrayRW_get e) = true) ->
  (forall e n, fst (NewCharArray e n) = true) ->
  let o := formatResult NewIntArray ScopedIntArrayRW_get NewCharArray env s
             fpi javaFieldPositionIterator in
  chars o = Some s
  /\ iteratorAfter o = iterator_done fpi javaFieldPositionIterator.
Proof.
  intros Hints Hget Hchars. unfold formatResult, copyChars, iterator_done.
  assert (Hcopy : forall e it,
            chars (let (result, e') := NewCharArray e (Z.of_nat (length s)) in
                   {| chars := if result then Some s else None;
                      iteratorAfter := it; formatEnv := e' |}) = Some s
            /\ iteratorAfter
                 (let (result, e') := NewCharArray e (Z.of_nat (length s)) in
                  {| chars := if result then Some s else None;
                     iteratorAfter := it; formatEnv := e' |}) = it).
  { intros e it. specialize (Hchars e (Z.of_nat (length s))).
    destruct (NewCharArray e _) as [ok e']. cbn [fst] in Hchars. subst ok.
    split; reflexivity. }
  destruct fpi as [positions |]; [| apply Hcopy].
  rewrite collect_triples. cbn [app].
  destruct positions as [| fp rest]; [apply Hcopy |].
  cbn [javaData_of].
  destruct (triples (fp :: rest)) as [| x data] eqn:Hdata; [discriminate |].
  specialize (Hints env (Z.of_nat (length (x :: data)))).
  destruct (NewIntArray env _) as [ok1 env1]. cbn [fst] in Hints. subst ok1.
  specialize (Hget env1).
  destruct (ScopedIntArrayRW_get env1) as [ok2 env2]. cbn [fst] in Hget.
  subst ok2. cbn [negb]. apply Hcopy.
Qed.

(** X11.  When the JNI allocations succeed, [formatResult] returns the
    text unchanged and gives the Java iterator one flat array that holds,
    for the k-th field position in iteration order, its field kind at
    offset 3k, its begin index at 3k+1 and its end index at 3k+2, and
    nothing else (3n entries for n positions); with no field position the
    iterator is given [null]. *)
Theorem formatResult_field_layout (env : JNIEnv) (s : UnicodeString)
    (positions : list FieldPosition) (it : JFieldPositionIterator) :
  (forall e n, fst (NewIntArray e n) = true) ->
  (forall e, fst (ScopedIntArrayRW_get e) = true) ->
  (forall e n, fst (NewCharArray e n) = true) ->
  let o := formatResult NewIntArray ScopedIntArrayRW_get NewCharArray env s
             (Some positions) (Some it) in
  chars o = Some s
  /\ (positions = [] -> iteratorAfter o = Some {| fpiData := None |})
  /\ (positions <> [] ->
      exists data,
        iteratorAfter o = Some {| fpiData := Some data |}
        /\ length data = (3 * length positions)%nat
        /\ forall k fp, nth_error positions k = Some fp ->
             nth_error data (3 * k) = Some (getField fp)
             /\ nth_error data (3 * k + 1) = Some (getBeginIndex fp)
             /\ nth_error data (3 * k + 2) = Some (getEndIndex fp)).
Proof.
  intros Hints Hget Hchars o.
  destruct (formatResult_allocated env s (Some positions) (Some it)
              Hints Hget Hchars) as [Hc Hit].
  fold o in Hc, Hit. cbn [iterator_done gFPI_setData] in Hit.
  split; [exact Hc | split].
  - intros ->. exact Hit.
  - intros Hne. exists (triples positions).
    destruct positions as [| fp rest]; [contradiction |].
    split; [exact Hit | split].
    + apply triples_length.
    + intros k p Hk. apply triples_nth. exact Hk.
Qed.

(** X12.  Whatever the allocations do, [formatResult] never returns a
    text other than the one it was given, and it returns it only after the
    Java iterator (when a native iterator was read) has been given the
    complete array; when it returns [NULL] the Java iterator either is
    untouched or holds that complete array, never a part of it. *)
Theorem formatResult_all_or_nothing (env : JNIEnv) (s : UnicodeString)
    (fpi : option (list FieldPosition))
    (javaFieldPositionIterator : option JFieldPositionIterator) :
  let o := formatResult NewIntArray ScopedIntArrayRW_get NewCharArray env s
             fpi javaFieldPositionIterator in
  (forall t, chars o = Some t ->
     t = s /\ iteratorAfter o = iterator_done fpi javaFieldPositionIterator)
  /\ (chars o = None ->
      iteratorAfter o = javaFieldPositionIterator
      \/ iteratorAfter o = iterator_done fpi javaFieldPositionIterator).
Proof.
  intros o.
  destruct (formatResult_cases env s fpi javaFieldPositionIterator)
    as [[Hnone Hit] | [Hchars Hit]]; fold o in Hit; split.
  - fold o in Hnone. intros t Ht. congruence.
  - intros _. left. exact Hit.
  - fold o in Hchars. intros t Ht. split; [| exact Hit].
    destruct Hchars as [Hc | Hc]; congruence.
  - intros _. right. exact Hit.
Qed.

Context {PatternRules : Type}.
Variable engine_format :
  DecimalFormat PatternRules -> FormatValue -> bool ->
  UnicodeString * list FieldPosition * UErrorCode.

(** X13.  When ICU's [format] reports a failure, the formatting methods
    return [NULL], leave the exception that carries the status pending and
    do not touch the Java iterator; no array is allocated. *)
Theorem format_failure (env : JNIEnv) (fmt : DecimalFormat PatternRules)
    (javaFieldPositionIterator : option JFieldPositionIterator)
    (value : FormatValue) :
  let fpi_given :=
    match javaFieldPositionIterator with Some _ => true | None => false end in
  let status := snd (engine_format fmt value fpi_given) in
  U_FAILURE status = true ->
  format NewIntArray ScopedIntArrayRW_get NewCharArray engine_format env fmt
    javaFieldPositionIterator value
  = {| chars := None;
       iteratorAfter := javaFieldPositionIterator;
       formatEnv := Throw env (IcuException "DecimalFormat::format" status) |}.
Proof.
  intros fpi_given status Hfail. unfold format. fold fpi_given.
  subst status.
  destruct (engine_format fmt value fpi_given) as [[s positions] status].
  cbn [snd] in Hfail.
  rewrite maybeThrowIcuException_failure by exact Hfail. reflexivity.
Qed.

(** X14.  When ICU's [format] reports success and the JNI allocations
    succeed, [formatLong] and [formatDouble] return exactly the text ICU
    produced; a Java iterator, when one was passed, is given the triples
    of ICU's field positions in order ([null] when there are none), and
    without one the field positions are not read. *)
Theorem format_success (env : JNIEnv) (fmt : DecimalFormat PatternRules)
    (javaFieldPositionIterator : option JFieldPositionIterator)
    (value : FormatValue) :
  let fpi_given :=
    match javaFieldPositionIterator with Some _ => true | None => false end in
  let answer := engine_format fmt value fpi_given in
  (forall e n, fst (NewIntArray e n) = true) ->
  (forall e, fst (ScopedIntArrayRW_get e) = true) ->
  (forall e n, fst (NewCharArray e n) = true) ->
  U_SUCCESS (snd answer) = true ->
  let o := format NewIntArray ScopedIntArrayRW_get NewCharArray engine_format
             env fmt javaFieldPositionIterator value in
  chars o = Some (fst (fst answer))
  /\ iteratorAfter o
     = match javaFieldPositionIterator with
       | Some _ => Some {| fpiData := javaData_of (snd (fst answer)) |}
       | None => None
       end.
Proof.
  intros fpi_given answer Hints Hget Hchars Hok. unfold format.
  fold fpi_given. subst answer.
  destruct (engine_format fmt value fpi_given) as [[s positions] status].
  cbn [fst snd] in *.
  rewrite maybeThrowIcuException_success by exact Hok.
  destruct (formatResult_allocated env s
              (if fpi_given then Some positions else None)
              javaFieldPositionIterator Hints Hget Hchars) as [Hc Hit].
  split; [exact Hc |]. rewrite Hit. subst fpi_given.
  destruct javaFieldPositionIterator; reflexivity.
Qed.

End FormattingFacts.

(** ** Text attributes and patterns *)

Section AttributeFacts.

Context {PatternRules : Type}.
Variable unum_getTextAttribute :
  DecimalFormat PatternRules -> jint -> Z -> UnicodeString * Z * UErrorCode.

(** X15.  If ICU's reader follows the preflighting convention for the
    text [text] of the attribute (see [preflight]), then
    [getTextAttribute] returns exactly [text] and raises nothing: the
    empty text after the single probing call with no buffer, any other
    text after a second call with a buffer one unit longer than the
    text. *)
Theorem getTextAttribute_returns_text (env : JNIEnv)
    (fmt : DecimalFormat PatternRules) (javaAttr : jint)
    (text : UnicodeString) :
  (forall capacity, 0 <= capacity ->
     unum_getTextAttribute fmt javaAttr capacity = preflight text capacity) ->
  NativeDecimalFormat_getTextAttribute unum_getTextAttribute env fmt javaAttr
  = (Some text, env).
Proof.
  intros Hicu. unfold NativeDecimalFormat_getTextAttribute.
  rewrite (Hicu 0) by lia. unfold preflight.
  destruct text as [| c rest].
  - reflexivity.
  - set (len := Z.of_nat (length (c :: rest))).
    assert (Hlen : 0 < len) by (subst len; cbn [length]; lia).
    replace (len <? 0) with false by (symmetry; apply Z.ltb_ge; lia).
    replace (len =? 0) with false by (symmetry; apply Z.eqb_neq; lia).
    cbn [Z.eqb U_BUFFER_OVERFLOW_ERROR Pos.eqb].
    rewrite (Hicu (len + 1)) by lia. unfold preflight. fold len.
    replace (len <? len + 1) with true by (symmetry; apply Z.ltb_lt; lia).
    cbn [U_ZERO_ERROR maybeThrowIcuException U_SUCCESS Z.leb Z.compare].
    unfold NewString. subst len. rewrite Nat2Z.id, firstn_all. reflexivity.
Qed.


Variable applyPattern :
  bool -> DecimalFormat PatternRules -> UnicodeString ->
  DecimalFormat PatternRules * UErrorCode.
Variable scoped : JNIEnv -> jstring -> ScopedJavaUnicodeString * JNIEnv.

(** X17.  When ICU rejects the pattern, [applyPatternImpl] makes the
    Java caller see an exception that carries ICU's status and names the
    operation that was chosen by the [localized] flag:
    "DecimalFormat::applyLocalizedPattern" when it is set,
    "DecimalFormat::applyPattern" otherwise.  When ICU accepts it the call
    adds no exception. *)
Theorem applyPatternImpl_exception (env : JNIEnv)
    (fmt : DecimalFormat PatternRules) (localized : bool) (pattern0 : jstring) :
  let src := fst (scoped env pattern0) in
  let status := snd (applyPattern localized fmt (unicodeString src)) in
  let out := NativeDecimalFormat_applyPatternImpl applyPattern scoped env fmt
               localized pattern0 in
  valid src = true ->
  (U_FAILURE status = true ->
     jni_return (snd out) tt
     = Throws (IcuException
                 (if localized
                  then "DecimalFormat::applyLocalizedPattern"
                  else "DecimalFormat::applyPattern")
                 status))
  /\ (U_SUCCESS status = true -> snd out = snd (scoped env pattern0)).
Proof.
  unfold NativeDecimalFormat_applyPatternImpl.
  destruct (scoped env pattern0) as [pattern env1]. cbn [fst snd].
  intros ->. cbn [negb].
  destruct localized;
    destruct (applyPattern _ fmt (unicodeString pattern)) as [fmt' status];
    cbn [snd]; split; intros H.
  - rewrite maybeThrowIcuException_failure by exact H. reflexivity.
  - rewrite maybeThrowIcuException_success by exact H. reflexivity.
  - rewrite maybeThrowIcuException_failure by exact H. reflexivity.
  - rewrite maybeThrowIcuException_success by exact H. reflexivity.
Qed.

End AttributeFacts.

(** ** Setters and the digit-list entry point *)

Section SetterFacts.

Context {PatternRules : Type}.
Variable unum_setSymbol :
  DecimalFormat PatternRules -> jint -> UnicodeString -> Z ->
  DecimalFormat PatternRules * UErrorCode.
Variable unum_setTextAttribute :
  DecimalFormat PatternRules -> jint -> UnicodeString -> Z ->
  DecimalFormat PatternRules * UErrorCode.
Variable stringChars : JNIEnv -> jstring -> option UnicodeString * JNIEnv.

(** X18.  [setSymbol] and [setTextAttribute] do nothing for a value whose
    characters cannot be obtained (a null reference): ICU is not called,
    the instance stays as it was and the bridge raises nothing of its
    own.  Otherwise ICU receives the characters together with their exact
    count and the instance is the one ICU leaves, whether it succeeded or
    not; the environment is unchanged when ICU reports success and holds
    the exception that carries ICU's status when it reports a failure. *)
Theorem setters_null_or_icu (env : JNIEnv) (fmt : DecimalFormat PatternRules)
    (id : jint) (javaValue : jstring) :
  let view := stringChars env javaValue in
  let sym := NativeDecimalFormat_setSymbol unum_setSymbol stringChars env fmt
               id javaValue in
  let txt := NativeDecimalFormat_setTextAttribute unum_setTextAttribute
               stringChars env fmt id javaValue in
  (fst view = None -> sym = (fmt, snd view) /\ txt = (fmt, snd view))
  /\ (forall value, fst view = Some value ->
        let icu_sym := unum_setSymbol fmt id value (Z.of_nat (length value)) in
        let icu_txt :=
          unum_setTextAttribute fmt id value (Z.of_nat (length value)) in
        fst sym = fst icu_sym
        /\ fst txt = fst icu_txt
        /\ (U_SUCCESS (snd icu_sym) = true -> snd sym = snd view)
        /\ (U_SUCCESS (snd icu_txt) = true -> snd txt = snd view)
        /\ (U_FAILURE (snd icu_sym) = true ->
            snd sym
            = Throw (snd view) (IcuException "unum_setSymbol" (snd icu_sym)))
        /\ (U_FAILURE (snd icu_txt) = true ->
            snd txt
            = Throw (snd view)
                (IcuException "unum_setTextAttribute" (snd icu_txt)))).
Proof.
  unfold NativeDecimalFormat_setSymbol, NativeDecimalFormat_setTextAttribute.
  destruct (stringChars env javaValue) as [value env1]. cbn [fst snd]. split.
  - intros ->. split; reflexivity.
  - intros v ->.
    destruct (unum_setSymbol fmt id v _) as [fmt1 status1].
    destruct (unum_setTextAttribute fmt id v _) as [fmt2 status2].
    cbn [fst snd]. repeat split.
    + destruct (maybeThrowIcuException env1 "unum_setSymbol" status1).
      reflexivity.
    + destruct (maybeThrowIcuException env1 "unum_setTextAttribute" status2).
      reflexivity.
    + intros H. rewrite maybeThrowIcuException_success by exact H. reflexivity.
    + intros H. rewrite maybeThrowIcuException_success by exact H. reflexivity.
    + intros H. rewrite maybeThrowIcuException_failure by exact H. reflexivity.
    + intros H. rewrite maybeThrowIcuException_failure by exact H. reflexivity.
Qed.

End SetterFacts.

Section DigitListFacts.

Lemma StringPiece_ctor_no_nul (str : string) : no_nul (StringPiece_ctor str).
Proof.
  induction str as [| c rest IH]; cbn; [exact I |].
  destruct (Z.eqb_spec (byte_of c) 0) as [H0 | Hne]; cbn; [exact I |].
  split; assumption.
Qed.

Lemma StringPiece_ctor_prefix (str : string) :
  String.prefix (StringPiece_ctor str) str = true.
Proof.
  induction str as [| c rest IH]; cbn; [reflexivity |].
  destruct (byte_of c =? 0); cbn; [reflexivity |].
  destruct (ascii_dec c c) as [_ | Hne]; [exact IH | contradiction].
Qed.

Lemma StringPiece_ctor_id (str : string) :
  no_nul str -> StringPiece_ctor str = str.
Proof.
  induction str as [| c rest IH]; cbn; [reflexivity |].
  intros [Hc Hrest]. destruct (Z.eqb_spec (byte_of c) 0); [contradiction |].
  now rewrite IH.
Qed.

Variable NewIntArray : JNIEnv -> Z -> bool * JNIEnv.
Variable ScopedIntArrayRW_get : JNIEnv -> bool * JNIEnv.
Variable NewCharArray : JNIEnv -> Z -> bool * JNIEnv.
Context {PatternRules : Type}.
Variable engine_format :
  DecimalFormat PatternRules -> FormatValue -> bool ->
  UnicodeString * list FieldPosition * UErrorCode.
Variable utfChars : JNIEnv -> jstring -> option string * JNIEnv.

(** X19.  [formatDigitList] returns [NULL] for a value whose bytes cannot
    be obtained, without consulting ICU or touching the Java iterator.
    Otherwise it formats, as the other entry points do, the digit text cut
    at its first NUL byte: what ICU receives holds no NUL, is a prefix of
    the bytes, and is all of them when they hold no NUL. *)
Theorem formatDigitList_value (env : JNIEnv) (fmt : DecimalFormat PatternRules)
    (value : jstring)
    (javaFieldPositionIterator : option JFieldPositionIterator) :
  let view := utfChars env value in
  let o := NativeDecimalFormat_formatDigitList NewIntArray ScopedIntArrayRW_get
             NewCharArray engine_format utfChars env fmt value
             javaFieldPositionIterator in
  (fst view = None ->
     o = {| chars := None;
            iteratorAfter := javaFieldPositionIterator;
            formatEnv := snd view |})
  /\ (forall c_str, fst view = Some c_str ->
        exists sp,
          o = format NewIntArray ScopedIntArrayRW_get NewCharArray
                engine_format (snd view) fmt javaFieldPositionIterator
                (StringPieceValue sp)
          /\ no_nul sp
          /\ String.prefix sp c_str = true
          /\ (no_nul c_str -> sp = c_str)).
Proof.
  unfold NativeDecimalFormat_formatDigitList.
  destruct (utfChars env value) as [bytes env1]. cbn [fst snd]. split.
  - intros ->. reflexivity.
  - intros c_str ->. exists (StringPiece_ctor c_str).
    split; [reflexivity | split; [| split]].
    + apply StringPiece_ctor_no_nul.
    + apply StringPiece_ctor_prefix.
    + apply StringPiece_ctor_id.
Qed.

End DigitListFacts.

(** ** More runs on concrete inputs *)

Module MoreRuns.

Import Scripted ScriptedMore.

(** "1,234" with an iterator: the array is kind, begin, end of the integer
    field, then of the grouping separator. *)
Example format_1234 :
  NativeDecimalFormat_formatLong alloc_always always alloc_always
    (format_scripted text_1234 fields_1234 U_ZERO_ERROR) env0 fmt0 1234
    (Some fresh_iterator)
  = {| chars := Some text_1234;
       iteratorAfter := Some {| fpiData := Some [0; 0; 5; 6; 1; 2] |};
       formatEnv := env0 |}.
Proof. reflexivity. Qed.

(** A rejected attribute: one call, no string, the exception. *)
Example getTextAttribute_unsupported :
  NativeDecimalFormat_getTextAttribute unsupported_attribute env0 fmt0 99
  = (None, Throw env0 (IcuException "unum_getTextAttribute" 16)).
Proof. reflexivity. Qed.

Lemma makeDecimalFormatSymbols_leaves_three_witness :
  getSymbol (fst (makeDecimalFormatSymbols plus_locale scoped env0 english))
    kPlusSignSymbol = [43]
  /\ getSymbol (fst (makeDecimalFormatSymbols plus_locale scoped env0 english))
       kPercentSymbol
     = getSymbol (fst (makeDecimalFormatSymbols no_symbols scoped env0 english))
         kPercentSymbol.
Proof.
  split.
  - exact (proj1 (makeDecimalFormatSymbols_leaves_three plus_locale scoped
                    no_symbols env0 english kPlusSignSymbol)
             (or_introl eq_refl)).
  - refine (proj2 (makeDecimalFormatSymbols_leaves_three plus_locale scoped
                     no_symbols env0 english kPercentSymbol) _ _ _);
      discriminate.
Defined.

Lemma digit_glyphs_distinct_witness :
  getSymbol (fst (makeDecimalFormatSymbols no_symbols scoped env0 english))
    kThreeDigitSymbol
  <> getSymbol (fst (makeDecimalFormatSymbols no_symbols scoped env0 english))
       kSevenDigitSymbol.
Proof.
  assert (Hz : jchar_range (zeroDigit english))
    by (unfold jchar_range; simpl; lia).
  assert (H3 : 0 <= 3 <= 9) by lia.
  assert (H7 : 0 <= 7 <= 9) by lia.
  assert (Hne : 3 <> 7) by lia.
  exact (digit_glyphs_distinct no_symbols scoped env0 english 3 7 Hz H3 H7 Hne).
Defined.

Lemma digit_glyph_units_witness :
  length (getSymbol (fst (makeDecimalFormatSymbols no_symbols scoped env0 top_zero))
            kOneDigitSymbol) = 2%nat
  /\ getSymbol (fst (makeDecimalFormatSymbols no_symbols scoped env0 top_zero))
       kOneDigitSymbol <> [0].
Proof.
  assert (Hz : jchar_range (zeroDigit top_zero))
    by (unfold jchar_range; simpl; lia).
  assert (H1 : 0 <= 1 <= 9) by lia.
  assert (Hgt : 65535 < zeroDigit top_zero + 1) by (simpl; lia).
  pose proof (digit_glyph_units no_symbols scoped env0 top_zero 1 Hz H1)
    as [Hlen [_ Hwrap]].
  split; [exact Hlen | exact (Hwrap Hgt)].
Defined.

Lemma parse_writes_at_most_one_offset_witness :
  exists e,
    positionAfter
      (NativeDecimalFormat_parse (parse res123 (stopped_at 3)) scoped env0 fmt0
         (Some text_123abc) (fresh 0) false)
    = gPP_setIndex (fresh 0) e.
Proof.
  exact (proj1 (proj2 (parse_writes_at_most_one_offset
                         (parse res123 (stopped_at 3)) scoped env0 fmt0
                         (Some text_123abc) (fresh 0) false))
           (Long 123) eq_refl).
Defined.

Lemma parse_unboxable_advances_witness :
  NativeDecimalFormat_parse (parse resString (stopped_at 2)) scoped env0 fmt0
    (Some text_123abc) (fresh 0) false
  = {| result := None;
       positionAfter := {| index := 2; errorIndex := -1 |};
       envAfter := env0 |}.
Proof.
  assert (H : 0 <= index (fresh 0) <= GetStringLength (Some text_123abc))
    by (simpl; lia).
  exact (parse_unboxable_advances (parse resString (stopped_at 2)) scoped env0
           fmt0 (Some text_123abc) (fresh 0) false eq_refl H eq_refl eq_refl).
Defined.

Lemma parse_result_kind_witness :
  (exists d, Long 123 = Double d) \/ (exists n, Long 123 = Long n).
Proof.
  exact (parse_result_kind (parse res123 (stopped_at 3)) scoped env0 fmt0
           (Some text_123abc) (fresh 0) false (Long 123) eq_refl).
Defined.

Lemma parse_consults_engine_once_witness :
  NativeDecimalFormat_parse (parse res123 (stopped_at 3)) scoped env0 fmt0
    (Some text_123abc) (fresh 0) true
  = NativeDecimalFormat_parse parse_if_fresh scoped env0 fmt0
      (Some text_123abc) (fresh 0) true.
Proof.
  exact (parse_consults_engine_once scoped (parse res123 (stopped_at 3))
           parse_if_fresh env0 fmt0 (Some text_123abc) (fresh 0) true eq_refl).
Defined.

Lemma open_null_handle_iff_witness :
  fst (NativeDecimalFormat_open (compile U_ZERO_ERROR) no_symbols scoped false
         env0 (Some pattern_grouped) english) = None.
Proof.
  exact (proj2 (open_null_handle_iff (compile U_ZERO_ERROR) no_symbols scoped
                  false env0 (Some pattern_grouped) english)
           (or_intror eq_refl)).
Defined.

Lemma open_raises_only_on_icu_failure_witness :
  snd (NativeDecimalFormat_open (compile pattern_error) no_symbols scoped false
         env0 (Some pattern_two_points) english) = env0.
Proof.
  exact (proj2 (open_raises_only_on_icu_failure (compile pattern_error)
                  no_symbols scoped false env0 (Some pattern_two_points)
                  english)
           eq_refl (or_introl eq_refl)).
Defined.

Lemma formatResult_field_layout_witness :
  chars (formatResult alloc_always always alloc_always env0 text_1234
           (Some fields_1234) (Some fresh_iterator)) = Some text_1234.
Proof.
  exact (proj1 (formatResult_field_layout alloc_always always alloc_always
                  env0 text_1234 fields_1234 fresh_iterator
                  (fun _ _ => eq_refl) (fun _ => eq_refl)
                  (fun _ _ => eq_refl))).
Defined.

Lemma formatResult_all_or_nothing_witness :
  text_1234 = text_1234
  /\ iteratorAfter (formatResult alloc_always always alloc_always env0
                      text_1234 (Some fields_1234) (Some fresh_iterator))
     = iterator_done (Some fields_1234) (Some fresh_iterator).
Proof.
  exact (proj1 (formatResult_all_or_nothing alloc_always always alloc_always
                  env0 text_1234 (Some fields_1234) (Some fresh_iterator))
           text_1234 eq_refl).
Defined.

Lemma format_failure_witness :
  format alloc_always always alloc_always (format_scripted [] [] 1) env0 fmt0
    (Some fresh_iterator) (Int64Value 5)
  = {| chars := None;
       iteratorAfter := Some fresh_iterator;
       formatEnv := Throw env0 (IcuException "DecimalFormat::format" 1) |}.
Proof.
  exact (format_failure alloc_always always alloc_always
           (format_scripted [] [] 1) env0 fmt0 (Some fresh_iterator)
           (Int64Value 5) eq_refl).
Defined.

Lemma format_success_witness :
  chars (format alloc_always always alloc_always
           (format_scripted text_1234 fields_1234 U_ZERO_ERROR) env0 fmt0
           None (Int64Value 1234)) = Some text_1234
  /\ iteratorAfter (format alloc_always always alloc_always
                      (format_scripted text_1234 fields_1234 U_ZERO_ERROR)
                      env0 fmt0 None (Int64Value 1234)) = None.
Proof.
  exact (format_success alloc_always always alloc_always
           (format_scripted text_1234 fields_1234 U_ZERO_ERROR) env0 fmt0
           None (Int64Value 1234)
           (fun _ _ => eq_refl) (fun _ => eq_refl) (fun _ _ => eq_refl)
           eq_refl).
Defined.

Lemma getTextAttribute_returns_text_witness :
  NativeDecimalFormat_getTextAttribute (text_attribute [45; 36]) env0 fmt0 1
  = (Some [45; 36], env0)
  /\ NativeDecimalFormat_getTextAttribute (text_attribute []) env0 fmt0 1
     = (Some [], env0).
Proof.
  split.
  - exact (getTextAttribute_returns_text (text_attribute [45; 36]) env0 fmt0 1
             [45; 36] (fun _ _ => eq_refl)).
  - exact (getTextAttribute_returns_text (text_attribute []) env0 fmt0 1 []
             (fun _ _ => eq_refl)).
Defined.

Lemma applyPatternImpl_exception_witness :
  jni_return
    (snd (NativeDecimalFormat_applyPatternImpl (apply_scripted pattern_error)
            scoped env0 fmt0 true (Some pattern_two_points))) tt
  = Throws (IcuException "DecimalFormat::applyLocalizedPattern" pattern_error).
Proof.
  exact (proj1 (applyPatternImpl_exception (apply_scripted pattern_error)
                  scoped env0 fmt0 true (Some pattern_two_points) eq_refl)
           eq_refl).
Defined.

Lemma setters_null_or_icu_witness :
  NativeDecimalFormat_setSymbol (set_scripted U_ZERO_ERROR) chars_of env0 fmt0
    1 None
  = (fmt0, Throw env0 NullPointerException)
  /\ NativeDecimalFormat_setTextAttribute (set_scripted U_ZERO_ERROR) chars_of
       env0 fmt0 1 None
     = (fmt0, Throw env0 NullPointerException).
Proof.
  exact (proj1 (setters_null_or_icu (set_scripted U_ZERO_ERROR)
                  (set_scripted U_ZERO_ERROR) chars_of env0 fmt0 1 None)
           eq_refl).
Defined.

Lemma formatDigitList_value_witness :
  NativeDecimalFormat_formatDigitList alloc_always always alloc_always
    (format_scripted text_1234 [] U_ZERO_ERROR) (utf_chars None) env0 fmt0
    None None
  = {| chars := None; iteratorAfter := None; formatEnv := env0 |}.
Proof.
  exact (proj1 (formatDigitList_value alloc_always always alloc_always
                  (format_scripted text_1234 [] U_ZERO_ERROR) (utf_chars None)
                  env0 fmt0 None None)
           eq_refl).
Defined.

End MoreRuns.
